(** * textual_click: command builder, launcher and widgets

    A shallow embedding of [textual_click/textual_click.py] and
    [textual_click/widgets/multiple_choice.py], together with the parts of
    Python's [shlex] and of [click] those files call, and the properties of
    the command-line serialisation they implement. *)

From Stdlib Require Import ZArith Ascii String List Bool Lia.
From stdpp Require Import base option list strings gmap fin_maps pretty.

Local Open Scope string_scope.

(** ** Strings

    A Python [str] is modelled as a Rocq [string]; [+:+] is concatenation.
    A character outside ASCII is carried by the bytes of its UTF-8
    encoding, all of them above 127 and so in none of the character
    classes that the functions below distinguish; [lstrip] alone knows
    the encodings of the blank characters outside ASCII. *)

(** [all_chars p s]: every character of [s] satisfies [p]. *)
Fixpoint all_chars (p : ascii -> bool) (s : string) : bool :=
  match s with
  | "" => true
  | String c s' => p c && all_chars p s'
  end.

Definition nonempty (s : string) : bool :=
  match s with "" => false | String _ _ => true end.

(** [str.isspace] on an ASCII character: tab to carriage return, the four
    separators and the space. *)
Definition is_ascii_space (c : ascii) : bool :=
  let n := nat_of_ascii c in
  (((9 <=? n) && (n <=? 13)) || ((28 <=? n) && (n <=? 32)))%nat.

(** The two-byte encodings of the blank characters U+0085 and U+00A0. *)
Definition is_space2 (c1 c2 : ascii) : bool :=
  let '(n1, n2) := (nat_of_ascii c1, nat_of_ascii c2) in
  ((n1 =? 194) && ((n2 =? 133) || (n2 =? 160)))%nat.

(** The three-byte encodings of the blank characters U+1680, U+2000 to
    U+200A, U+2028, U+2029, U+202F, U+205F and U+3000. *)
Definition is_space3 (c1 c2 c3 : ascii) : bool :=
  let '(n1, n2, n3) := (nat_of_ascii c1, nat_of_ascii c2, nat_of_ascii c3) in
  (((n1 =? 225) && (n2 =? 154) && (n3 =? 128))
   || ((n1 =? 226) && (n2 =? 128)
       && (((128 <=? n3) && (n3 <=? 138))
           || (n3 =? 168) || (n3 =? 169) || (n3 =? 175)))
   || ((n1 =? 226) && (n2 =? 129) && (n3 =? 159))
   || ((n1 =? 227) && (n2 =? 128) && (n3 =? 128)))%nat.

(** [s.lstrip()]: [s] without the blank characters it starts with. *)
Fixpoint lstrip (s : string) : string :=
  match s with
  | "" => ""
  | String c1 s1 =>
      if is_ascii_space c1 then lstrip s1
      else
        match s1 with
        | "" => s
        | String c2 s2 =>
            if is_space2 c1 c2 then lstrip s2
            else
              match s2 with
              | "" => s
              | String c3 s3 => if is_space3 c1 c2 c3 then lstrip s3 else s
              end
        end
  end.

(** ** Python's [shlex]: [quote] and the POSIX-mode tokenizer behind [split] *)

Module Shlex.

Definition squote : ascii := "'"%char.
Definition dquote : ascii := "034"%char.
Definition backslash : ascii := "\"%char.

(** [\w] under [re.ASCII]: letters, digits and the underscore. *)
Definition is_word (c : ascii) : bool :=
  let n := nat_of_ascii c in
  (((48 <=? n) && (n <=? 57)) || ((65 <=? n) && (n <=? 90))
   || ((97 <=? n) && (n <=? 122)) || (n =? 95))%nat.

(** The complement of [_find_unsafe], the class [[^\w@%+=:,./-]]. *)
Definition is_safe (c : ascii) : bool :=
  is_word c
  || existsb (Ascii.eqb c)
       ["@"; "%"; "+"; "="; ":"; ","; "."; "/"; "-"]%char.

(** [s.replace("'", "'\"'\"'")]. *)
Fixpoint replace_squote (s : string) : string :=
  match s with
  | "" => ""
  | String c s' =>
      if Ascii.eqb c squote
      then String squote (String dquote (String squote (String dquote
             (String squote (replace_squote s')))))
      else String c (replace_squote s')
  end.

(** [shlex.quote]. *)
Definition quote (s : string) : string :=
  if negb (nonempty s) then "''"
  else if all_chars is_safe s then s
  else String squote (replace_squote s +:+ String squote "").

(** The tokenizer of [shlex.split]: POSIX mode, [whitespace_split] on,
    no comment characters.  The states are those of [shlex.read_token]:
    [' '] between tokens, ['a'] inside one, a quote character inside a
    quotation, and the escape character with the state to return to. *)
Inductive lex_state : Type :=
| St_space
| St_word
| St_quote (q : ascii)
| St_escape (escapedstate : lex_state).

Definition is_whitespace (c : ascii) : bool :=
  existsb (Ascii.eqb c) [" "; "009"; "013"; "010"]%char.
Definition is_quote (c : ascii) : bool :=
  Ascii.eqb c squote || Ascii.eqb c dquote.
Definition is_escape (c : ascii) : bool := Ascii.eqb c backslash.
Definition is_escapedquote (c : ascii) : bool := Ascii.eqb c dquote.

Definition snoc (token : string) (c : ascii) : string :=
  token +:+ String c "".

(** What [read_token] hands back when the input ends inside a word. *)
Definition last_token (quoted : bool) (token : string) : list string :=
  if negb quoted && negb (nonempty token) then [] else [token].

Fixpoint tokens (st : lex_state) (quoted : bool) (token : string)
    (input : string) : option (list string) :=
  match input with
  | "" =>
      match st with
      | St_space | St_word => Some (last_token quoted token)
      | St_quote _ => None       (* ValueError: No closing quotation *)
      | St_escape _ => None      (* ValueError: No escaped character *)
      end
  | String c rest =>
      match st with
      | St_space =>
          if is_whitespace c then
            if nonempty token || quoted
            then cons token <$> tokens St_space false "" rest
            else tokens St_space quoted token rest
          else if is_escape c then tokens (St_escape St_word) quoted token rest
          else if is_quote c then tokens (St_quote c) quoted token rest
          else tokens St_word quoted (String c "") rest
      | St_quote q =>
          if Ascii.eqb c q then tokens St_word true token rest
          else if is_escape c && is_escapedquote q
          then tokens (St_escape (St_quote q)) true token rest
          else tokens (St_quote q) true (snoc token c) rest
      | St_escape escapedstate =>
          let token :=
            match escapedstate with
            | St_quote q =>
                if negb (Ascii.eqb c backslash) && negb (Ascii.eqb c q)
                then snoc token backslash else token
            | _ => token
            end in
          tokens escapedstate quoted (snoc token c) rest
      | St_word =>
          if is_whitespace c then
            if nonempty token || quoted
            then cons token <$> tokens St_space false "" rest
            else tokens St_space quoted token rest
          else if is_quote c then tokens (St_quote c) quoted token rest
          else if is_escape c then tokens (St_escape St_word) quoted token rest
          else tokens St_word quoted (snoc token c) rest
      end
  end.

(** [shlex.split(s)]; [None] stands for the [ValueError] it raises. *)
Definition split (s : string) : option (list string) :=
  tokens St_space false "" s.

(** [' '.join(shlex.quote(s) for s in args)]. *)
Definition join (args : list string) : string :=
  String.concat " " (map quote args).

(** The characters the shell treats specially: blanks, quotes, the
    backslash and the operator, expansion and pattern characters. *)
Definition is_special (c : ascii) : bool :=
  is_whitespace c || is_quote c || is_escape c
  || existsb (Ascii.eqb c)
       ["|"; "&"; ";"; "<"; ">"; "("; ")"; "$"; "`"; "*"; "?"; "["; "]";
        "#"; "~"; "!"; "{"; "}"]%char.

Definition has_special (s : string) : bool :=
  negb (all_chars (fun c => negb (is_special c)) s).

(** Whether [quote] had to add quotes. *)
Definition quotes_added (s : string) : bool :=
  negb (nonempty s) || negb (all_chars is_safe s).

(** The single-quoted form [quote] falls back to. *)
Definition single_quoted (s : string) : string :=
  String squote (replace_squote s +:+ String squote "").

End Shlex.

(** ** The parts of [click] that [tui] uses

    Command objects live in a heap and are named by references, so that
    "the same object" and "a new object" can be told apart. *)

(** The Python exceptions that the modelled code can raise, and the
    outcome of following a reference that the heap does not hold, which no
    Python program can produce. *)
Inductive exn : Type :=
| TypeError (msg : string)
| AttributeError (msg : string)
| DanglingReference.

Inductive result (A : Type) : Type :=
| Ok (a : A)
| Raise (e : exn).
Arguments Ok {A} a.
Arguments Raise {A} e.

#[global] Instance result_ret : MRet result := @Ok.
#[global] Instance result_bind : MBind result := fun A B k m =>
  match m with
  | Ok a => k a
  | Raise e => Raise e
  end.

Module Click.

Abbreviation ref := nat (only parsing).

(** A command callback: some function of the client program, or the
    closure [wrapped_tui] with the [app] and [name] it captured. *)
Inductive Callback : Type :=
| User_function (fname : string)
| Wrapped_tui (app : ref) (name : string).

(** [click.Command] and its subclass [click.Group]. *)
Inductive Obj : Type :=
| Command (name : option string) (callback : option Callback)
| Group (name : option string) (commands : gmap string ref).

Abbreviation Heap := (list Obj) (only parsing).

Definition obj_name (o : Obj) : option string :=
  match o with
  | Command n _ => n
  | Group n _ => n
  end.

(** [isinstance(o, click.Group)]. *)
Definition isinstance_Group (o : Obj) : bool :=
  match o with
  | Group _ _ => true
  | Command _ _ => false
  end.

Definition alloc (h : Heap) (o : Obj) : ref * Heap := (length h, (h ++ [o])%list).

(** [Group.add_command(cmd)]: [self.commands[cmd.name] = cmd]. *)
Definition add_command (h : Heap) (group cmd : ref) : result Heap :=
  match h !! group, h !! cmd with
  | Some (Group gname commands), Some c =>
      match obj_name c with
      | None => Raise (TypeError "Command has no name.")
      | Some name => Ok (<[group := Group gname (<[name := cmd]> commands)]> h)
      end
  | _, _ => Raise DanglingReference
  end.

(** [group.command(name=name)(f)]: build a command around [f] and add it. *)
Definition command (h : Heap) (group : ref) (name : string) (f : Callback)
    : result Heap :=
  let '(cmd, h) := alloc h (Command (Some name) (Some f)) in
  add_command h group cmd.

End Click.

(** ** [textual_click.tui] *)

(** The command that [group.command(name="tui")(wrapped_tui)] creates. *)
Definition tui_command (app : Click.ref) (name : string) : Click.Obj :=
  Click.Command (Some "tui") (Some (Click.Wrapped_tui app name)).

(** [tui(name)(app)]: the decorated object and the heap after decoration. *)
Definition tui (name : string) (h : list Click.Obj) (app : Click.ref)
    : result (Click.ref * list Click.Obj) :=
  match h !! app with
  | None => Raise DanglingReference
  | Some o =>
      let wrapped_tui := Click.Wrapped_tui app name in
      if Click.isinstance_Group o then
        h ← Click.command h app "tui" wrapped_tui;
        Ok (app, h)
      else
        let '(new_group, h) := Click.alloc h (Click.Group None ∅) in
        h ← Click.add_command h new_group app;
        h ← Click.command h new_group "tui" wrapped_tui;
        Ok (new_group, h)
  end.

(** ** What the application needs from [run_command] and [introspect]

    [textual_click.py] only calls [to_cli_args] and [to_cli_string] on the
    [UserCommandData] it receives, and reads [node.data] of a tree node. *)
Class RunCommand : Type := {
  CommandSchema : Type;
  UserCommandData : Type;
  to_cli_args : UserCommandData -> bool -> list string;
  to_cli_string : UserCommandData -> bool -> string;
}.

(** [TreeNode[CommandSchema]]. *)
Record TreeNode `{RunCommand} : Type := {
  node_label : string;
  node_data : CommandSchema;
}.

(** What [self.query_one(CommandTree).cursor_node] gives: the query raises
    [NoMatches], or it finds the tree and reads its cursor node, which is
    [None] while no node is highlighted. *)
Inductive CursorQuery `{RunCommand} : Type :=
| NoMatches
| Cursor_node (node : option TreeNode).

(** ** [CommandBuilder], the screen *)

Module CommandBuilder.
Section Screen.
Context `{RunCommand}.

(** The attributes of the screen, and the two widgets it writes to:
    the text of [#home-exec-preview-static] and the schema of the form
    mounted in [#home-body-scroll]. *)
Record t : Type := {
  command_data : option UserCommandData;
  is_grouped_cli : bool;
  click_app_name : string;
  selected_command_schema : option CommandSchema;
  exec_preview : string;
  form_body : option CommandSchema;
}.

Definition __init__ (cli : Click.Obj) (click_app_name : string) : t :=
  {| command_data := None;
     is_grouped_cli := Click.isinstance_Group cli;
     click_app_name := click_app_name;
     selected_command_schema := None;
     exec_preview := "";
     form_body := None |}.

(** The plain text of [Text.assemble(("$ ", prompt_style),
    Text(f"{click_app_name} ").append(highlighter(new_value)))]. *)
Definition preview_string (click_app_name new_value : string) : string :=
  "$ " +:+ (click_app_name +:+ " ") +:+ new_value.

Definition set_command_data (self : t) (v : option UserCommandData) : t :=
  {| command_data := v;
     is_grouped_cli := is_grouped_cli self;
     click_app_name := click_app_name self;
     selected_command_schema := selected_command_schema self;
     exec_preview := exec_preview self;
     form_body := form_body self |}.

Definition set_selected_command_schema (self : t) (v : option CommandSchema)
    : t :=
  {| command_data := command_data self;
     is_grouped_cli := is_grouped_cli self;
     click_app_name := click_app_name self;
     selected_command_schema := v;
     exec_preview := exec_preview self;
     form_body := form_body self |}.

Definition set_exec_preview (self : t) (v : string) : t :=
  {| command_data := command_data self;
     is_grouped_cli := is_grouped_cli self;
     click_app_name := click_app_name self;
     selected_command_schema := selected_command_schema self;
     exec_preview := v;
     form_body := form_body self |}.

Definition set_form_body (self : t) (v : option CommandSchema) : t :=
  {| command_data := command_data self;
     is_grouped_cli := is_grouped_cli self;
     click_app_name := click_app_name self;
     selected_command_schema := selected_command_schema self;
     exec_preview := exec_preview self;
     form_body := v |}.

(** Both call sites pass [self.command_data] as [command_data_], so the
    guard on [self.command_data] also covers the argument. *)
Definition _update_execution_string_preview (self : t)
    (command_schema : option CommandSchema)
    (command_data_ : option UserCommandData) : t :=
  match command_data self, command_data_ with
  | Some _, Some command_data_ =>
      let include_root := negb (is_grouped_cli self) in
      let new_value := to_cli_string command_data_ include_root in
      set_exec_preview self (preview_string (click_app_name self) new_value)
  | _, _ => self
  end.

(** Empty [#home-body-scroll], then mount a form for [node.data]. *)
Definition _update_form_body (self : t) (node : TreeNode) : t :=
  set_form_body self (Some (node_data node)).

(** The body of [_refresh_command_form] once [node] is known. *)
Definition refresh_for_node (self : t) (node : TreeNode) : t :=
  let self := set_selected_command_schema self (Some (node_data node)) in
  let self :=
    _update_execution_string_preview self
      (selected_command_schema self) (command_data self) in
  _update_form_body self node.

(** The screen after the call, and the exception the call raised, if
    any.  Without a [node] the cursor node of the command tree is taken;
    on [NoMatches] the method returns, and a cursor node that is [None]
    has no [data]. *)
Definition _refresh_command_form (self : t) (node : option TreeNode)
    (query : CursorQuery) : t * option exn :=
  match node with
  | Some node => (refresh_for_node self node, None)
  | None =>
      match query with
      | NoMatches => (self, None)
      | Cursor_node (Some node) => (refresh_for_node self node, None)
      | Cursor_node None =>
          (self,
           Some (AttributeError "'NoneType' object has no attribute 'data'"))
      end
  end.

Definition on_mount (self : t) (query : CursorQuery) : t * option exn :=
  _refresh_command_form self None query.

(** Handler of [Tree.NodeHighlighted]. *)
Definition selected_command_changed (self : t) (event_node : TreeNode)
    : t * option exn :=
  _refresh_command_form self (Some event_node) NoMatches.

(** Handler of [CommandForm.Changed].  [selected_command_schema] is an
    attribute only once [_refresh_command_form] has assigned it; reading
    it before raises, after [command_data] has been assigned. *)
Definition update_command_data (self : t)
    (event_command_data : UserCommandData) : t * option exn :=
  let self := set_command_data self (Some event_command_data) in
  match selected_command_schema self with
  | None =>
      (self,
       Some (AttributeError
               "'CommandBuilder' object has no attribute 'selected_command_schema'"))
  | Some schema =>
      (_update_execution_string_preview self (Some schema) (command_data self),
       None)
  end.

End Screen.

Section Description.
Context `{RunCommand}.

(** [CommandSchema.docstring], [None] when the command has none. *)
Variable docstring : CommandSchema -> option string.

(** [_update_command_description]: the text handed to the description
    box, [f"[b]{...}[/]\n{description_text}"]. *)
Definition _update_command_description (self : t) (node : TreeNode) : string :=
  let description_text :=
    match docstring (node_data node) with
    | Some d => if nonempty d then d else ""
    | None => ""
    end in
  let description_text := lstrip description_text in
  "[b]"
    +:+ (if is_grouped_cli self then node_label node else click_app_name self)
    +:+ "[/]" +:+ String "010" description_text.

End Description.
End CommandBuilder.

(** ** [TextualClick], the application *)

(** [Console().print] of Rich on a markup string: the text that reaches
    the terminal, or [None] when Rich rejects the markup and raises
    [MarkupError]. *)
Class Rich : Type := {
  console_print : string -> option string;
}.

Module TextualClick.
Section App.
Context `{RunCommand} `{Rich}.

(** The attributes of the application, its screen stack, whether [exit()]
    has been called, and the exception of a handler that stopped it. *)
Record t : Type := {
  cli : Click.Obj;
  post_run_command : list string;
  is_grouped_cli : bool;
  execute_on_exit : bool;
  app_name : string;
  screen_stack : list CommandBuilder.t;
  exit_called : bool;
  error : option exn;
}.

(** [app_name] is taken from the root click context; the keyword argument
    of that name is not used. *)
Definition __init__ (cli : Click.Obj) (app_name_arg : string)
    (root_info_name : string) : t :=
  {| cli := cli;
     post_run_command := [];
     is_grouped_cli := Click.isinstance_Group cli;
     execute_on_exit := false;
     app_name := root_info_name;
     screen_stack := [];
     exit_called := false;
     error := None |}.

Definition set_post_run_command (self : t) (v : list string) : t :=
  {| cli := cli self;
     post_run_command := v;
     is_grouped_cli := is_grouped_cli self;
     execute_on_exit := execute_on_exit self;
     app_name := app_name self;
     screen_stack := screen_stack self;
     exit_called := exit_called self;
     error := error self |}.

Definition set_execute_on_exit (self : t) (v : bool) : t :=
  {| cli := cli self;
     post_run_command := post_run_command self;
     is_grouped_cli := is_grouped_cli self;
     execute_on_exit := v;
     app_name := app_name self;
     screen_stack := screen_stack self;
     exit_called := exit_called self;
     error := error self |}.

Definition set_screen_stack (self : t) (v : list CommandBuilder.t) : t :=
  {| cli := cli self;
     post_run_command := post_run_command self;
     is_grouped_cli := is_grouped_cli self;
     execute_on_exit := execute_on_exit self;
     app_name := app_name self;
     screen_stack := v;
     exit_called := exit_called self;
     error := error self |}.

(** A handler raised [e]: the application stops on it. *)
Definition stop_on (self : t) (raised : option exn) : t :=
  match raised with
  | None => self
  | Some e =>
      {| cli := cli self;
         post_run_command := post_run_command self;
         is_grouped_cli := is_grouped_cli self;
         execute_on_exit := execute_on_exit self;
         app_name := app_name self;
         screen_stack := screen_stack self;
         exit_called := exit_called self;
         error := Some e |}
  end.

(** [self.exit()]. *)
Definition exit (self : t) : t :=
  {| cli := cli self;
     post_run_command := post_run_command self;
     is_grouped_cli := is_grouped_cli self;
     execute_on_exit := execute_on_exit self;
     app_name := app_name self;
     screen_stack := screen_stack self;
     exit_called := true;
     error := error self |}.

(** [push_screen(CommandBuilder(self.cli, self.app_name))]; the pushed
    screen is mounted in turn, [query] being what its command tree
    answers at that moment. *)
Definition on_mount (self : t) (query : CursorQuery) : t :=
  let screen := CommandBuilder.__init__ (cli self) (app_name self) in
  let '(screen, raised) := CommandBuilder.on_mount screen query in
  stop_on (set_screen_stack self (screen :: screen_stack self)) raised.

(** Run a handler of the active screen. *)
Definition on_screen
    (handler : CommandBuilder.t -> CommandBuilder.t * option exn) (self : t)
    : t :=
  match screen_stack self with
  | [] => self
  | screen :: below =>
      let '(screen, raised) := handler screen in
      stop_on (set_screen_stack self (screen :: below)) raised
  end.

(** [CommandBuilder.action_close_and_run], acting on [self.app]. *)
Definition action_close_and_run (self : t) : t :=
  exit (set_execute_on_exit self true).

Definition on_button_pressed (self : t) (button_id : option string) : t :=
  if decide (button_id = Some "home-exec-button")
  then exit (set_execute_on_exit self true)
  else self.

(** Handler of [CommandForm.Changed]. *)
Definition update_command_to_run (self : t)
    (event_command_data : UserCommandData) : t :=
  let include_root_command := negb (is_grouped_cli self) in
  set_post_run_command self
    (to_cli_args event_command_data include_root_command).

Definition action_focus_command_tree (self : t) : t := self.
Definition action_show_command_info (self : t) : t := self.

(** What the framework delivers while the application runs. *)
Inductive Event : Type :=
| Tree_NodeHighlighted (node : TreeNode)
| CommandForm_Changed (command_data : UserCommandData)
| Key_ctrl_r
| Key_ctrl_t
| Key_ctrl_i
| Button_Pressed (button_id : option string)
| Quit.

Definition stopped (self : t) : bool :=
  match error self with Some _ => true | None => false end.

(** The application still handles what reaches it: [exit()] has not been
    called and no handler has raised. *)
Definition handling (self : t) : bool :=
  negb (exit_called self) && negb (stopped self).

(** One event, through the handlers bound to it.  The screen handles a
    message whenever one reaches it; the application handles keys,
    buttons and the messages that bubble up to it only while it is
    [handling].  A [CommandForm.Changed] bubbles from the screen to the
    application unless the handler of the screen raised. *)
Definition deliver (self : t) (ev : Event) : t :=
  match ev with
  | Tree_NodeHighlighted node =>
      on_screen (fun s => CommandBuilder.selected_command_changed s node) self
  | CommandForm_Changed command_data =>
      let self :=
        on_screen (fun s => CommandBuilder.update_command_data s command_data)
          self in
      if handling self then update_command_to_run self command_data else self
  | Key_ctrl_r => if handling self then action_close_and_run self else self
  | Key_ctrl_t =>
      if handling self then action_focus_command_tree self else self
  | Key_ctrl_i =>
      if handling self then action_show_command_info self else self
  | Button_Pressed button_id =>
      if handling self then on_button_pressed self button_id else self
  | Quit => if handling self then exit self else self
  end.

(** [App.run]: mount, then the events delivered before shutdown. *)
Definition super_run (self : t) (query : CursorQuery) (events : list Event)
    : t :=
  fold_left deliver events (on_mount self query).

(** The call [os.execvp(file, args)]. *)
Record Execvp : Type := { file : string; args : list string }.

(** What [run] leaves behind: the final attributes, the lines printed on
    the console, and the [os.execvp] call if one is made. *)
Record Outcome : Type := {
  final : t;
  console : list string;
  launched : option Execvp;
}.

Definition is_nil {A : Type} (l : list A) : bool :=
  match l with [] => true | _ => false end.

(** The [finally] clause runs however [App.run] ended.  When the markup
    of the "Running" line is rejected, [console.print] raises and
    [os.execvp] is not reached. *)
Definition run (self : t) (query : CursorQuery) (events : list Event)
    : Outcome :=
  let self := super_run self query events in
  if negb (is_nil (post_run_command self)) then
    if negb (is_nil (post_run_command self)) && execute_on_exit self then
      match
        console_print
          ("Running [b cyan]" +:+ app_name self +:+ " "
             +:+ Shlex.join (post_run_command self) +:+ "[/]")
      with
      | Some printed =>
          {| final := self;
             console := [printed];
             launched :=
               Some {| file := app_name self;
                       args := app_name self :: post_run_command self |} |}
      | None => {| final := self; console := []; launched := None |}
      end
    else {| final := self; console := []; launched := None |}
  else {| final := self; console := []; launched := None |}.

(** The events by which the user asks to close and run. *)
Definition is_commit (ev : Event) : bool :=
  match ev with
  | Key_ctrl_r => true
  | Button_Pressed button_id =>
      bool_decide (button_id = Some "home-exec-button")
  | _ => false
  end.

(** The data of the latest [CommandForm.Changed] among the events. *)
Definition next_edit (edit : option UserCommandData) (ev : Event)
    : option UserCommandData :=
  match ev with
  | CommandForm_Changed command_data => Some command_data
  | _ => edit
  end.

Definition last_edit (events : list Event) : option UserCommandData :=
  fold_left next_edit events None.

(** The preview text and the command to run that belong to an edit, for a
    CLI of the given kind. *)
Definition preview_of (click_app_name : string) (grouped : bool)
    (edit : option UserCommandData) : string :=
  match edit with
  | Some d =>
      "$ " +:+ (click_app_name +:+ " ") +:+ to_cli_string d (negb grouped)
  | None => ""
  end.

Definition command_of (grouped : bool) (edit : option UserCommandData)
    : list string :=
  match edit with
  | Some d => to_cli_args d (negb grouped)
  | None => []
  end.

(** The one screen of the running application keeps the data of [edit],
    and shows its preview once a command is selected; the application
    keeps the command of [edit] as long as it is still handling. *)
Definition tracks (the_cli : Click.Obj) (info_name : string) (self : t)
    (edit : option UserCommandData) : Prop :=
  let grouped := Click.isinstance_Group the_cli in
  is_grouped_cli self = grouped
  /\ app_name self = info_name
  /\ (execute_on_exit self = true -> exit_called self = true)
  /\ (handling self = true -> post_run_command self = command_of grouped edit)
  /\ exists screen,
       screen_stack self = [screen]
       /\ CommandBuilder.is_grouped_cli screen = grouped
       /\ CommandBuilder.click_app_name screen = info_name
       /\ CommandBuilder.command_data screen = edit
       /\ CommandBuilder.exec_preview screen
          = match CommandBuilder.selected_command_schema screen with
            | Some _ => preview_of info_name grouped edit
            | None => ""
            end
       /\ (error self = None -> edit <> None ->
           CommandBuilder.selected_command_schema screen <> None).


(** The events that report an edit of the form. *)
Definition is_edit (ev : Event) : bool :=
  match ev with
  | CommandForm_Changed _ => true
  | _ => false
  end.

End App.
End TextualClick.

(** ** The callback of the [tui] subcommand *)

Section TuiCallback.
Context `{RunCommand} `{Rich}.

(** [wrapped_tui(ctx)]: [TextualClick(app, app_name=name,
    click_context=ctx).run()], with [app] as the heap holds it when the
    callback runs; [None] for a reference the heap does not hold. *)
Definition wrapped_tui (h : list Click.Obj) (app : Click.ref) (name : string)
    (root_info_name : string) (query : CursorQuery)
    (events : list TextualClick.Event) : option TextualClick.Outcome :=
  match h !! app with
  | Some o =>
      Some (TextualClick.run (TextualClick.__init__ o name root_info_name)
              query events)
  | None => None
  end.

(** Invoking the subcommand registered as "tui" on [group], when its
    callback is a [wrapped_tui]. *)
Definition invoke_tui (h : list Click.Obj) (group : Click.ref)
    (root_info_name : string) (query : CursorQuery)
    (events : list TextualClick.Event) : option TextualClick.Outcome :=
  match h !! group with
  | Some (Click.Group _ commands) =>
      match commands !! "tui" with
      | Some cmd =>
          match h !! cmd with
          | Some (Click.Command _ (Some (Click.Wrapped_tui app name))) =>
              wrapped_tui h app name root_info_name query events
          | _ => None
          end
      | None => None
      end
  | _ => None
  end.

End TuiCallback.

(** ** [MultipleChoice], the widget *)

Module MultipleChoice.

(** The Python values kept in [defaults] and [selected]. *)
Inductive PyVal : Type :=
| Py_str (s : string)
| Py_tuple (items : list PyVal).

(** [rich.text.Text], by its [plain] text. *)
Record Text : Type := { plain : string }.

(** A [Checkbox] child: its label and its value. *)
Record Checkbox : Type := { label : Text; value : bool }.

(** A checkbox object: its position among the children of the widget, and
    its attributes when it was looked at. *)
Abbreviation CheckboxRef := (nat * Checkbox)%type (only parsing).

(** [MultipleChoice.Changed]. *)
Inductive Message : Type :=
| Changed (selected : list CheckboxRef).

(** The attributes of the widget, its [Checkbox] children in document
    order, and the messages it has posted, oldest first. *)
Record t : Type := {
  options : list string;
  defaults : list PyVal;
  selected : list PyVal;
  checkboxes : list Checkbox;
  posted : list Message;
}.

Definition __init__ (options : list string)
    (defaults : option (list PyVal)) : t :=
  let defaults :=
    match defaults with
    | None => [Py_tuple []]
    | Some defaults => defaults
    end in
  {| options := options;
     defaults := defaults;
     selected := defaults;
     checkboxes := [];
     posted := [] |}.

(** The children, once [compose] has yielded one per option. *)
Definition mounted (self : t) (children : list Checkbox) : t :=
  {| options := options self;
     defaults := defaults self;
     selected := selected self;
     checkboxes := children;
     posted := posted self |}.

(** [self.query(Checkbox)]. *)
Definition query_Checkbox (self : t) : list CheckboxRef :=
  imap (fun i checkbox => (i, checkbox)) (checkboxes self).

Definition on_checkbox_changed (self : t) : t :=
  let checkboxes_ := query_Checkbox self in
  let selected_ :=
    fold_left
      (fun (selected_ : list CheckboxRef) (checkbox : CheckboxRef) =>
         if value (snd checkbox) then (selected_ ++ [checkbox])%list
         else selected_)
      checkboxes_ [] in
  {| options := options self;
     defaults := defaults self;
     selected :=
       map (fun checkbox : CheckboxRef =>
              Py_tuple [Py_str (plain (label (snd checkbox)))]) selected_;
     checkboxes := checkboxes self;
     posted := (posted self ++ [Changed selected_])%list |}.

(** The user toggles the [i]-th checkbox: its value flips, and the
    [Checkbox.Changed] message this causes reaches the widget. *)
Definition toggle (self : t) (i : nat) : t :=
  let flipped :=
    match checkboxes self !! i with
    | Some checkbox =>
        <[i := {| label := label checkbox; value := negb (value checkbox) |}]>
          (checkboxes self)
    | None => checkboxes self
    end in
  on_checkbox_changed (mounted self flipped).

(** [a == b] on the values of [defaults]: a [str] and a [tuple] are never
    equal, tuples are equal item by item. *)
Fixpoint pyval_eqb (a b : PyVal) : bool :=
  match a, b with
  | Py_str s, Py_str s' => String.eqb s s'
  | Py_tuple xs, Py_tuple ys =>
      (fix items_eqb (xs ys : list PyVal) : bool :=
         match xs, ys with
         | [], [] => true
         | x :: xs, y :: ys => pyval_eqb x y && items_eqb xs ys
         | _, _ => false
         end) xs ys
  | _, _ => false
  end.

(** [x in l]. *)
Definition py_in (x : PyVal) (l : list PyVal) : bool :=
  existsb (pyval_eqb x) l.

Definition is_tuple (v : PyVal) : bool :=
  match v with Py_tuple _ => true | Py_str _ => false end.

Section Compose.

(** The label a [Checkbox] makes of the text it is given. *)
Variable make_label : string -> Text.

(** [compose]: the checkboxes yielded, one per option. *)
Definition compose (self : t) : list Checkbox :=
  map (fun option =>
         {| label := make_label option;
            value := py_in (Py_str option) (defaults self) |})
    (options self).

End Compose.

(** [checkbox.label == label] for a [str]: the label of a checkbox is a
    [Text], and a [Text] is not equal to any [str]. *)
Definition label_eq_str (checkbox_label : Text) (label_ : string) : bool :=
  false.

(** How many checkboxes an assignment of new values changes. *)
Definition changed_values (before after : list Checkbox) : nat :=
  length (List.filter (fun p : Checkbox * Checkbox =>
                         negb (Bool.eqb (value (fst p)) (value (snd p))))
            (combine before after)).

(** [select_by_label]: every checkbox is assigned a value; each one whose
    value changes sends a [Checkbox.Changed], handled once the method has
    returned. *)
Definition select_by_label (self : t) (label_ : string) : t :=
  let assigned :=
    map (fun checkbox =>
           {| label := label checkbox;
              value := label_eq_str (label checkbox) label_ |})
      (checkboxes self) in
  Nat.iter (changed_values (checkboxes self) assigned) on_checkbox_changed
    (mounted self assigned).

End MultipleChoice.

(** ** The schema, the user data and the serializer

    [introspect.py] and [run_command.py] are described by the
    specification only; this module follows its sections 3, 4.2 and 4.3. *)

(** Modelled from the spec: the float value type of [value_type], whose
    reading from and rendering to text the specification leaves to the
    platform. *)
Class FloatText : Type := {
  float : Type;
  float_of_text : string -> option float;
  text_of_float : float -> string;
}.

Module Model.
Section WithFloat.
Context `{FloatText}.

(** Modelled from the spec: [ParameterSchema.kind]. *)
Inductive Kind : Type := FLAG | OPTION | ARGUMENT.

(** Modelled from the spec: [ParameterSchema.value_type]. *)
Inductive ValueType : Type :=
| string_type | integer_type | float_type | path_type | choice_type.

(** Modelled from the spec: [ParameterSchema.multiplicity]. *)
Inductive Multiplicity : Type := single | multiple.

(** Modelled from the spec: one value, already coerced to its type. *)
Inductive Value : Type :=
| V_string (s : string)
| V_integer (z : Z)
| V_float (f : float)
| V_path (s : string)
| V_choice (s : string).

(** Modelled from the spec: what [values] holds for one parameter, a
    boolean for a FLAG, one value, or an ordered sequence of values. *)
Inductive Stored : Type :=
| Flag (b : bool)
| Single (v : Value)
| Multiple (vs : list Value).

(** Modelled from the spec: [ParameterSchema]. *)
Record ParameterSchema : Type := {
  name : string;
  kind : Kind;
  value_type : ValueType;
  multiplicity : Multiplicity;
  required : bool;
  default : option Stored;
  choices : option (list string);
  help : string;
}.

(** Modelled from the spec: [CommandSchema], a finite tree. *)
Inductive CommandSchema : Type := Build_CommandSchema {
  command_name : string;
  docstring : string;
  parameters : list ParameterSchema;
  children : list CommandSchema;
}.

(** Modelled from the spec: [UserCommandData], the selected command path
    (root first) and the values entered so far. *)
Record UserCommandData : Type := {
  path : list CommandSchema;
  values : gmap string Stored;
}.

(** Modelled from the spec: [CommandInvocation]. *)
Record CommandInvocation : Type := {
  argv : list string;
  display_string : string;
}.

(** Modelled from the spec: the textual form of a value; integers render
    without leading zeros, paths and strings as given. *)
Definition render (v : Value) : string :=
  match v with
  | V_string s => s
  | V_integer z => pretty z
  | V_float f => text_of_float f
  | V_path s => s
  | V_choice s => s
  end.

(** Modelled from the spec: step 1 of [serialize], the command-path
    tokens. *)
Definition path_tokens (path : list CommandSchema) (include_root : bool)
    : list string :=
  match path with
  | [] => []
  | root :: below =>
      ((if include_root then [command_name root] else [])
         ++ map command_name below)%list
  end.

(** Modelled from the spec: the value of a single-valued parameter,
    explicit or default. *)
Definition single_value (data : UserCommandData) (p : ParameterSchema)
    : option Value :=
  match values data !! name p with
  | Some (Single v) => Some v
  | Some _ => None
  | None =>
      match default p with
      | Some (Single v) => Some v
      | _ => None
      end
  end.

(** Modelled from the spec: the stored sequence of a multi-valued
    parameter. *)
Definition stored_sequence (data : UserCommandData) (p : ParameterSchema)
    : list Value :=
  match values data !! name p with
  | Some (Multiple vs) => vs
  | _ => []
  end.

(** Modelled from the spec: the stored value of a FLAG is present and
    true. *)
Definition flag_is_set (data : UserCommandData) (p : ParameterSchema) : bool :=
  match values data !! name p with
  | Some (Flag true) => true
  | _ => false
  end.

(** Modelled from the spec: step 2 of [serialize] for a FLAG or an
    OPTION. *)
Definition option_tokens (data : UserCommandData) (p : ParameterSchema)
    : list string :=
  match kind p with
  | FLAG => if flag_is_set data p then [name p] else []
  | OPTION =>
      match multiplicity p with
      | single =>
          match single_value data p with
          | Some v => [name p; render v]
          | None => []
          end
      | multiple =>
          flat_map (fun v => [name p; render v]) (stored_sequence data p)
      end
  | ARGUMENT => []
  end.

(** Modelled from the spec: step 2 of [serialize] for an ARGUMENT. *)
Definition argument_tokens (data : UserCommandData) (p : ParameterSchema)
    : list string :=
  match kind p with
  | ARGUMENT =>
      match multiplicity p with
      | single =>
          match single_value data p with
          | Some v => [render v]
          | None => []
          end
      | multiple => map render (stored_sequence data p)
      end
  | _ => []
  end.

(** Modelled from the spec: the parameters of the leaf command, the last
    node of the path. *)
Definition leaf_parameters (path : list CommandSchema)
    : list ParameterSchema :=
  match last path with
  | Some leaf => parameters leaf
  | None => []
  end.

(** Modelled from the spec: [serialize], section 4.3: path tokens, then
    the options of the leaf in declared order, then its arguments;
    [display_string] joins the quoted tokens with single spaces. *)
Definition serialize (path : list CommandSchema) (data : UserCommandData)
    (include_root : bool) : CommandInvocation :=
  let ps := leaf_parameters path in
  let argv :=
    (path_tokens path include_root
       ++ flat_map (option_tokens data) ps
       ++ flat_map (argument_tokens data) ps)%list in
  {| argv := argv; display_string := Shlex.join argv |}.

(** Modelled from the spec: the lifecycle of [UserCommandData], created
    empty when a command node is selected. *)
Definition create (path : list CommandSchema) : UserCommandData :=
  {| path := path; values := ∅ |}.

(** Modelled from the spec: what the form hands to [set], a boolean for a
    FLAG, the raw text of one value, or the raw texts of a sequence. *)
Inductive Input : Type :=
| Input_flag (b : bool)
| Input_text (raw : string)
| Input_texts (raws : list string).

(** Modelled from the spec: what [set] signals to its caller. *)
Inductive SetOutcome : Type :=
| Accepted
| UnknownParameter (name : string)
| ValidationError (name : string).

(** Modelled from the spec: the parameter called [n] on the associated
    command. *)
Definition find_parameter (data : UserCommandData) (n : string)
    : option ParameterSchema :=
  List.find (fun p => bool_decide (name p = n))
    (leaf_parameters (path data)).

Definition digit_value (c : ascii) : option Z :=
  let n := nat_of_ascii c in
  if ((48 <=? n) && (n <=? 57))%nat then Some (Z.of_nat (n - 48)) else None.

Fixpoint digits_value (acc : Z) (s : string) : option Z :=
  match s with
  | "" => Some acc
  | String c s' =>
      match digit_value c with
      | Some d => digits_value (10 * acc + d) s'
      | None => None
      end
  end.

(** Modelled from the spec: coercion of raw text to an integer, an
    optional sign and at least one decimal digit. *)
Definition integer_of_text (raw : string) : option Z :=
  match raw with
  | String "-" s => if nonempty s then Z.opp <$> digits_value 0 s else None
  | String "+" s => if nonempty s then digits_value 0 s else None
  | s => if nonempty s then digits_value 0 s else None
  end.

(** Modelled from the spec: coercion of raw text to [value_type]. *)
Definition coerce_type (vt : ValueType) (raw : string) : option Value :=
  match vt with
  | string_type => Some (V_string raw)
  | integer_type => V_integer <$> integer_of_text raw
  | float_type => V_float <$> float_of_text raw
  | path_type => Some (V_path raw)
  | choice_type => Some (V_choice raw)
  end.

(** Modelled from the spec: membership in the closed set [choices], when
    one is declared. *)
Definition in_choices (p : ParameterSchema) (raw : string) : bool :=
  match choices p with
  | None => true
  | Some cs => bool_decide (raw ∈ cs)
  end.

Definition coerce_text (p : ParameterSchema) (raw : string) : option Value :=
  if in_choices p raw then coerce_type (value_type p) raw else None.

(** Modelled from the spec: validation of an input against the shape of
    the parameter: a boolean for a FLAG, a sequence exactly when the
    multiplicity is [multiple]. *)
Definition coerce (p : ParameterSchema) (input : Input) : option Stored :=
  match kind p, input with
  | FLAG, Input_flag b => Some (Flag b)
  | FLAG, _ => None
  | _, Input_flag _ => None
  | _, Input_text raw =>
      match multiplicity p with
      | single => Single <$> coerce_text p raw
      | multiple => None
      end
  | _, Input_texts raws =>
      match multiplicity p with
      | single => None
      | multiple => Multiple <$> mapM (coerce_text p) raws
      end
  end.

(** Modelled from the spec: [set(name, value)], section 4.2: the data
    after the call and what the caller is told. *)
Definition set (data : UserCommandData) (n : string) (input : Input)
    : UserCommandData * SetOutcome :=
  match find_parameter data n with
  | None => (data, UnknownParameter n)
  | Some p =>
      match coerce p input with
      | None => (data, ValidationError n)
      | Some v =>
          ({| path := path data; values := <[n := v]> (values data) |},
           Accepted)
      end
  end.

(** Modelled from the spec: [unset(name)]. *)
Definition unset (data : UserCommandData) (n : string) : UserCommandData :=
  {| path := path data; values := delete n (values data) |}.

(** Modelled from the spec: [get(name)]. *)
Definition get (data : UserCommandData) (n : string) : option Stored :=
  values data !! n.

(** Modelled from the spec: the two methods of [UserCommandData] that
    [textual_click.py] calls, as the two halves of [serialize]. *)
Definition run_command : RunCommand :=
  Build_RunCommand CommandSchema UserCommandData
    (fun data include_root_command =>
       argv (serialize (path data) data include_root_command))
    (fun data include_root_command =>
       display_string (serialize (path data) data include_root_command)).

End WithFloat.
End Model.

(** A [FloatText] for the examples: a float is kept by its literal, a
    non-empty text of decimal digits and points. *)
Definition literal_floats : FloatText :=
  {| float := string;
     float_of_text := fun raw =>
       let literal :=
         all_chars
           (fun c => existsb (Ascii.eqb c)
              ["0"; "1"; "2"; "3"; "4"; "5"; "6"; "7"; "8"; "9"; "."]%char)
           raw in
       if nonempty raw && literal then Some raw else None;
     text_of_float := fun f => f |}.

(** ** Example programs

    A single command [hello], a command that is itself called [tui], and
    the group [myapp] with the subcommands [deploy] and [status]. *)

Definition hello_command : Click.Obj :=
  Click.Command (Some "hello") (Some (Click.User_function "hello")).

Definition tui_named_command : Click.Obj :=
  Click.Command (Some "tui") (Some (Click.User_function "tui")).

Definition myapp_group : Click.Obj :=
  Click.Group (Some "myapp") (<["deploy" := 1]> (<["status" := 2]> ∅)).

(** [s] without the prefix [p], when it starts with it. *)
Fixpoint strip_prefix (p s : string) : option string :=
  match p, s with
  | "", _ => Some s
  | String a p', String b s' =>
      if Ascii.eqb a b then strip_prefix p' s' else None
  | _, "" => None
  end.

(** The text before a closing tag that ends [s], when [s] holds no other
    bracket. *)
Fixpoint strip_closing_tag (s : string) : option string :=
  match s with
  | "" => None
  | String c s' =>
      if Ascii.eqb c "["
      then match s' with
           | String "/" (String "]" "") => Some ""
           | _ => None
           end
      else String c <$> strip_closing_tag s'
  end.

(** A [Rich] for the examples, none of which holds a bracket in its
    command: the "Running" line of such a command is printed without its
    two tags; no other string is decided here, all of them count as
    rejected. *)
Definition bracket_free_console : Rich :=
  {| console_print := fun markup =>
       match strip_prefix "Running [b cyan]" markup with
       | Some rest =>
           match strip_closing_tag rest with
           | Some body => Some ("Running " +:+ body)
           | None => None
           end
       | None => None
       end |}.

Module Examples.
Import Model.
#[local] Existing Instance literal_floats.
#[local] Existing Instance run_command.
#[local] Existing Instance bracket_free_console.

Definition parameter (name : string) (kind : Kind) (value_type : ValueType)
    (multiplicity : Multiplicity) (choices : option (list string))
    : ParameterSchema :=
  {| name := name; kind := kind; value_type := value_type;
     multiplicity := multiplicity; required := false; default := None;
     choices := choices; help := "" |}.

Definition env_option : ParameterSchema :=
  parameter "--env" OPTION string_type single None.
Definition tag_option : ParameterSchema :=
  parameter "--tag" OPTION string_type multiple None.
Definition force_flag : ParameterSchema :=
  parameter "--force" FLAG string_type single None.
Definition color_option : ParameterSchema :=
  parameter "--color" OPTION choice_type single (Some ["red"; "green"]).
Definition count_option : ParameterSchema :=
  parameter "--count" OPTION integer_type single None.
Definition target_argument : ParameterSchema :=
  parameter "target" ARGUMENT string_type single None.

Definition deploy_schema : CommandSchema :=
  {| command_name := "deploy"; docstring := "Deploy a target.";
     parameters :=
       [env_option; tag_option; force_flag; color_option; count_option;
        target_argument];
     children := [] |}.

Definition status_schema : CommandSchema :=
  {| command_name := "status"; docstring := "Show the status.";
     parameters := []; children := [] |}.

Definition myapp_schema : CommandSchema :=
  {| command_name := "myapp"; docstring := "";
     parameters := []; children := [deploy_schema; status_schema] |}.

Definition hello_schema : CommandSchema :=
  {| command_name := "hello"; docstring := "Say hello.";
     parameters := [parameter "--name" OPTION string_type single None];
     children := [] |}.

Definition deploy_data : UserCommandData :=
  {| path := [myapp_schema; deploy_schema];
     values :=
       <["--env" := Single (V_string "prod")]>
         (<["--force" := Flag true]>
            (<["target" := Single (V_string "web")]> ∅)) |}.

Definition tagged_data : UserCommandData :=
  {| path := [myapp_schema; deploy_schema];
     values :=
       <["--tag" := Multiple [V_string "a"; V_string "b"]]> (values deploy_data) |}.

Definition hello_data : UserCommandData :=
  {| path := [hello_schema];
     values := <["--name" := Single (V_string "x")]> ∅ |}.


Definition hello_node : TreeNode :=
  {| node_label := "hello"; node_data := hello_schema |}.
Definition deploy_node : TreeNode :=
  {| node_label := "deploy"; node_data := deploy_schema |}.

(** The root of [myapp] selected, nothing filled in. *)
Definition myapp_node : TreeNode :=
  {| node_label := "myapp"; node_data := myapp_schema |}.
Definition myapp_data : UserCommandData := create [myapp_schema].

(** The single command [hello], edited once and committed. *)
Definition hello_run : TextualClick.Outcome :=
  TextualClick.run (TextualClick.__init__ hello_command "TUI Mode" "hello")
    (Cursor_node (Some hello_node))
    [TextualClick.CommandForm_Changed hello_data; TextualClick.Key_ctrl_r].

(** The group [myapp]: [deploy] edited once and committed. *)
Definition deploy_run : TextualClick.Outcome :=
  TextualClick.run (TextualClick.__init__ myapp_group "TUI Mode" "myapp")
    (Cursor_node (Some deploy_node))
    [TextualClick.CommandForm_Changed deploy_data; TextualClick.Key_ctrl_r].


End Examples.

(** * Properties *)

(** ** Strings *)

Lemma string_app_cons (c : ascii) (s t : string) :
  String c s +:+ t = String c (s +:+ t).
Proof. reflexivity. Qed.

Lemma string_app_nil_l (s : string) : "" +:+ s = s.
Proof. reflexivity. Qed.

Lemma string_app_nil_r (s : string) : s +:+ "" = s.
Proof. induction s as [|c s IH]; [done|]. by rewrite string_app_cons, IH. Qed.

Lemma string_app_assoc (s t u : string) : (s +:+ t) +:+ u = s +:+ (t +:+ u).
Proof.
  induction s as [|c s IH]; [done|]. by rewrite !string_app_cons, IH.
Qed.

Lemma string_app_snoc (s : string) (c : ascii) (t : string) :
  (s +:+ String c "") +:+ t = s +:+ String c t.
Proof. by rewrite string_app_assoc. Qed.


(** ** Quoting and tokenizing *)

Example quote_plain : Shlex.quote "--env" = "--env".
Proof. reflexivity. Qed.

Example quote_space : Shlex.quote "us east" = "'us east'".
Proof. reflexivity. Qed.

Example quote_squote : Shlex.split (Shlex.quote "it's") = Some ["it's"].
Proof. reflexivity. Qed.

Example split_unterminated : Shlex.split "'us east" = None.
Proof. reflexivity. Qed.

Section ShlexFacts.
Import Shlex.

Lemma safe_is_plain (c : ascii) :
  is_safe c = true ->
  is_whitespace c = false /\ is_quote c = false /\ is_escape c = false.
Proof.
  destruct c as [[] [] [] [] [] [] [] []]; vm_compute; intros Hc;
    first [discriminate Hc | repeat split].
Qed.

Lemma special_is_unsafe (c : ascii) : is_special c = true -> is_safe c = false.
Proof.
  destruct c as [[] [] [] [] [] [] [] []]; vm_compute; intros Hc;
    first [discriminate Hc | reflexivity].
Qed.

Lemma has_special_unsafe (s : string) :
  has_special s = true -> all_chars is_safe s = false.
Proof.
  unfold has_special. induction s as [|c s IH]; simpl; [done|].
  destruct (is_special c) eqn:Hc; simpl.
  - intros _. by rewrite (special_is_unsafe c Hc).
  - intros Hs. rewrite (IH Hs). apply andb_false_r.
Qed.

(** A run of safe characters is appended to the token as it is. *)
Lemma tokens_word_safe (s : string) :
  forall quoted token rest,
    all_chars is_safe s = true ->
    tokens St_word quoted token (s +:+ rest)
    = tokens St_word quoted (token +:+ s) rest.
Proof.
  induction s as [|c s IH]; intros quoted token rest Hs.
  - by rewrite string_app_nil_l, string_app_nil_r.
  - simpl in Hs. apply andb_true_iff in Hs as [Hc Hs].
    destruct (safe_is_plain c Hc) as (Hw & Hq & He).
    rewrite string_app_cons. cbn [tokens]. rewrite Hw, Hq, He.
    rewrite IH by done. unfold snoc. by rewrite string_app_snoc.
Qed.

(** Inside single quotes, the escaped body gives the text back and the
    closing quote leaves the tokenizer inside the word. *)
Lemma tokens_squote_body (s : string) :
  forall quoted token rest,
    tokens (St_quote squote) quoted token
      (replace_squote s +:+ String squote rest)
    = tokens St_word true (token +:+ s) rest.
Proof.
  induction s as [|c s IH]; intros quoted token rest.
  - rewrite string_app_nil_r. reflexivity.
  - cbn [replace_squote]. destruct (Ascii.eqb c squote) eqn:Hc.
    + apply Ascii.eqb_eq in Hc as ->.
      rewrite !string_app_cons. cbn [tokens]. cbn.
      rewrite IH. unfold snoc. by rewrite string_app_snoc.
    + rewrite string_app_cons. cbn [tokens]. rewrite Hc.
      replace (is_escape c && is_escapedquote squote) with false
        by (symmetry; apply andb_false_r).
      rewrite IH. unfold snoc. by rewrite string_app_snoc.
Qed.

Lemma tokens_quote (s rest : string) :
  tokens St_space false "" (quote s +:+ rest)
  = tokens St_word (quotes_added s) s rest.
Proof.
  unfold quote, quotes_added. destruct s as [|c s]; [reflexivity|].
  cbn [nonempty negb orb]. destruct (all_chars is_safe (String c s)) eqn:Hs.
  - cbn [negb]. pose proof Hs as Hs'. simpl in Hs'.
    apply andb_true_iff in Hs' as [Hc Hs'].
    destruct (safe_is_plain c Hc) as (Hw & Hq & He).
    rewrite string_app_cons. cbn [tokens]. rewrite Hw, Hq, He.
    by rewrite tokens_word_safe.
  - cbn [negb]. rewrite string_app_cons, string_app_assoc, string_app_cons.
    rewrite string_app_nil_l. cbn [tokens]. cbn [is_whitespace existsb].
    change (tokens (St_quote squote) false ""
              (replace_squote (String c s) +:+ String squote rest)
            = tokens St_word true (String c s) rest).
    by rewrite tokens_squote_body.
Qed.

Lemma last_token_quote (s : string) : last_token (quotes_added s) s = [s].
Proof.
  destruct s; [reflexivity|]. unfold last_token. cbn [nonempty negb].
  by rewrite andb_false_r.
Qed.

Lemma emit_quote (s : string) : nonempty s || quotes_added s = true.
Proof. by destruct s. Qed.

Lemma tokens_join (args : list string) :
  tokens St_space false "" (join args) = Some args.
Proof.
  unfold join. induction args as [|a [|b args] IH].
  - reflexivity.
  - cbn [map String.concat].
    rewrite <- (string_app_nil_r (quote a)), tokens_quote.
    cbn [tokens]. by rewrite last_token_quote.
  - change (String.concat " " (map quote (a :: b :: args)))
      with (quote a +:+ String " " (String.concat " " (map quote (b :: args)))).
    rewrite tokens_quote. cbn [tokens]. cbn [is_whitespace existsb].
    change (Ascii.eqb " " " ") with true. cbn [orb].
    rewrite emit_quote, IH. reflexivity.
Qed.

End ShlexFacts.

(** C5: re-tokenizing a generated display string gives back the argument
    vector it was built from.  The display string is the tokens quoted by
    [shlex.quote] and joined with single spaces; each token alone
    round-trips, a token with a blank, a quote or a shell metacharacter
    is put in single quotes, and a token that needs no quoting is left
    as it is. *)
Theorem display_string_round_trip (argv : list string) :
  Shlex.split (Shlex.join argv) = Some argv
  /\ Shlex.join argv = String.concat " " (map Shlex.quote argv)
  /\ Forall (fun token =>
       Shlex.split (Shlex.quote token) = Some [token]
       /\ (Shlex.has_special token = true ->
           Shlex.quote token = Shlex.single_quoted token)
       /\ (Shlex.quotes_added token = false -> Shlex.quote token = token))
     argv.
Proof.
  split; [apply tokens_join|]. split; [reflexivity|].
  apply Forall_forall. intros token _. split; [|split].
  - apply (tokens_join [token]).
  - intros Hsp. apply has_special_unsafe in Hsp.
    unfold Shlex.quote, Shlex.single_quoted. rewrite Hsp.
    by destruct token.
  - unfold Shlex.quotes_added, Shlex.quote. intros Hq.
    apply orb_false_iff in Hq as [Hne Hsafe].
    rewrite Hne. apply negb_false_iff in Hsafe. by rewrite Hsafe.
Qed.

(** The message [run] prints and the vector it launches agree. *)
Lemma run_message_round_trip (post_run_command : list string) :
  Shlex.split (Shlex.join post_run_command) = Some post_run_command.
Proof. apply tokens_join. Qed.

(** ** The multiple-choice widget *)

Section MultipleChoiceFacts.
Import MultipleChoice.

Lemma fold_selected (l acc : list (nat * Checkbox)) :
  fold_left
    (fun (selected_ : list (nat * Checkbox)) checkbox =>
       if value (snd checkbox) then (selected_ ++ [checkbox])%list
       else selected_) l acc
  = (acc ++ List.filter (fun checkbox => value (snd checkbox)) l)%list.
Proof.
  revert acc. induction l as [|x l IH]; intros acc; simpl.
  - by rewrite app_nil_r.
  - rewrite IH. destruct (value (snd x)); [|done].
    by rewrite <- app_assoc.
Qed.

Lemma filter_refs {A : Type} (g : nat -> A) (l : list Checkbox) :
  map snd
    (List.filter (fun checkbox : A * Checkbox => value (snd checkbox))
       (imap (fun i checkbox => (g i, checkbox)) l))
  = List.filter value l.
Proof.
  revert g. induction l as [|x l IH]; intros g; [done|].
  cbn [imap List.filter snd]. destruct (value x); cbn [map snd].
  - f_equal. apply (IH (g ∘ S)).
  - apply (IH (g ∘ S)).
Qed.

(** C9: after a checkbox-change event [selected] lists, in the order of
    the checkboxes, a one-element tuple with the plain label of every
    checked checkbox, and the message posted last carries exactly the
    checked checkboxes; a new widget has [selected] equal to [defaults],
    which is the list with one empty tuple when none are given. *)
Theorem selected_follows_checkboxes (self : t) (i : nat)
    (options : list string) (given : list PyVal) :
  let checked (w : t) :=
    List.filter (fun checkbox : nat * Checkbox => value (snd checkbox))
      (query_Checkbox w) in
  let labels (w : t) :=
    map (fun checkbox => Py_tuple [Py_str (plain (label checkbox))])
      (List.filter value (checkboxes w)) in
  (selected (on_checkbox_changed self) = labels self
   /\ last (posted (on_checkbox_changed self)) = Some (Changed (checked self))
   /\ map snd (checked self) = List.filter value (checkboxes self)
   /\ checkboxes (on_checkbox_changed self) = checkboxes self)
  /\ (selected (toggle self i) = labels (toggle self i)
      /\ last (posted (toggle self i)) = Some (Changed (checked (toggle self i))))
  /\ selected (__init__ options None) = [Py_tuple []]
  /\ selected (__init__ options None) = defaults (__init__ options None)
  /\ selected (__init__ options (Some given)) = given
  /\ defaults (__init__ options (Some given)) = given.
Proof.
  intros checked labels.
  assert (Hhandler : forall w,
    selected (on_checkbox_changed w) = labels w
    /\ last (posted (on_checkbox_changed w)) = Some (Changed (checked w))
    /\ map snd (checked w) = List.filter value (checkboxes w)
    /\ checkboxes (on_checkbox_changed w) = checkboxes w).
  { intros w. unfold on_checkbox_changed, labels, checked. cbn.
    rewrite fold_selected. cbn [app]. repeat split.
    - unfold query_Checkbox.
      rewrite <- (filter_refs (fun i => i) (checkboxes w)).
      by rewrite map_map.
    - by rewrite last_snoc.
    - apply (filter_refs (fun i => i)). }
  split; [apply Hhandler|]. split; [|done].
  unfold toggle.
  set (w := mounted self _).
  destruct (Hhandler w) as (Hsel & Hpost & _ & Hcb).
  split.
  - rewrite Hsel. unfold labels. by rewrite Hcb.
  - rewrite Hpost. unfold checked, query_Checkbox. by rewrite Hcb.
Qed.

End MultipleChoiceFacts.

(** ** The [tui] decorator *)

Section TuiFacts.
Import Click.

Lemma command_registers (h : list Obj) (group : nat) (gname : option string)
    (commands : gmap string nat) (name : string) (f : Callback) :
  h !! group = Some (Group gname commands) ->
  command h group name f
  = Ok (<[group := Group gname (<[name := length h]> commands)]>
          (h ++ [Command (Some name) (Some f)])%list).
Proof.
  intros Hg. unfold command, alloc, add_command.
  rewrite (lookup_app_l_Some _ _ _ _ Hg).
  by rewrite list_lookup_middle.
Qed.

(** C10 (amended): on a group [g] the decorator registers a new command
    under the name "tui" on [g] and returns [g] itself; on a command [c]
    that is not a group and has a name other than "tui" it returns a new
    group holding [c] under its name and a new "tui" command, and [c] and
    every other object already in the heap stay as they were. *)
Theorem tui_decorates (name : string) (h : list Obj) (app : nat) (o : Obj) :
  h !! app = Some o ->
  match o with
  | Group gname commands =>
      exists h',
        tui name h app = Ok (app, h')
        /\ h' !! app = Some (Group gname (<["tui" := length h]> commands))
        /\ h !! length h = None
        /\ h' !! length h = Some (tui_command app name)
        /\ (forall r o', r <> app -> h !! r = Some o' -> h' !! r = Some o')
  | Command cname callback =>
      forall n, cname = Some n -> n <> "tui" ->
      exists h',
        tui name h app = Ok (length h, h')
        /\ h !! length h = None
        /\ h' !! length h
           = Some (Group None (<["tui" := S (length h)]> {[n := app]}))
        /\ h' !! S (length h) = Some (tui_command app name)
        /\ (forall r o', h !! r = Some o' -> h' !! r = Some o')
  end.
Proof.
  intros Happ. pose proof (lookup_lt_Some _ _ _ Happ) as Hlt.
  destruct o as [cname callback | gname commands].
  - intros n -> Hn. unfold tui. rewrite Happ. cbn [isinstance_Group alloc].
    set (h1 := (h ++ [Group None ∅])%list).
    assert (Hg1 : h1 !! length h = Some (Group None ∅))
      by apply list_lookup_middle, eq_refl.
    assert (Hc1 : h1 !! app = Some (Command (Some n) callback))
      by by apply lookup_app_l_Some.
    unfold add_command at 1. rewrite Hg1, Hc1. cbn [obj_name mbind result_bind].
    set (h2 := <[length h := _]> h1).
    assert (Hh2 : h2 = (h ++ [Group None {[n := app]}])%list).
    { unfold h2, h1. rewrite insert_app_r_alt by lia.
      rewrite Nat.sub_diag. cbn. by rewrite insert_empty. }
    assert (Hg2 : h2 !! length h = Some (Group None {[n := app]}))
      by (rewrite Hh2; apply list_lookup_middle, eq_refl).
    rewrite (command_registers h2 (length h) None _ "tui" _ Hg2).
    cbn [mbind result_bind].
    assert (Hlen2 : length h2 = S (length h))
      by (rewrite Hh2, length_app; cbn; lia).
    rewrite Hlen2. fold (tui_command app name).
    set (G := Group None (<["tui" := S (length h)]> {[n := app]})).
    assert (Hfinal : <[length h := G]> (h2 ++ [tui_command app name])%list
                     = (h ++ [G; tui_command app name])%list).
    { rewrite Hh2, <- app_assoc. rewrite insert_app_r_alt by lia.
      by rewrite Nat.sub_diag. }
    rewrite Hfinal. eexists. split; [reflexivity|]. repeat split.
    + by apply lookup_ge_None_2.
    + by apply list_lookup_middle.
    + rewrite lookup_app_r by lia.
      replace (S (length h) - length h) with 1 by lia. reflexivity.
    + intros r o' Hr. by apply lookup_app_l_Some.
  - unfold tui. rewrite Happ. cbn [isinstance_Group].
    rewrite (command_registers h app gname commands "tui" _ Happ).
    cbn [mbind result_bind]. fold (tui_command app name).
    eexists. split; [reflexivity|]. repeat split.
    + apply list_lookup_insert_eq. rewrite length_app. lia.
    + by apply lookup_ge_None_2.
    + rewrite list_lookup_insert_ne by lia. by apply list_lookup_middle.
    + intros r o' Hne Hr. rewrite list_lookup_insert_ne by done.
      by apply lookup_app_l_Some.
Qed.

(** The decorator at a single command named "hello". *)
Lemma tui_decorates_witness :
  exists h',
    tui "TUI Mode" [hello_command] 0 = Ok (1, h')
    /\ h' !! 1 = Some (Group None (<["tui" := 2]> {["hello" := 0]}))
    /\ h' !! 0 = Some hello_command.
Proof.
  destruct (tui_decorates "TUI Mode" [hello_command] 0 hello_command eq_refl
              "hello" eq_refl ltac:(discriminate))
    as (h' & Htui & _ & Hgroup & _ & Hkept).
  exists h'. split; [exact Htui|]. split; [exact Hgroup|].
  apply Hkept. reflexivity.
Defined.

(** C10 as stated fails for a command that is itself named "tui": the new
    group holds the TUI command only, the decorated command is not in it. *)
Lemma tui_name_collision :
  exists h' commands,
    tui "TUI Mode" [tui_named_command] 0 = Ok (1, h')
    /\ h' !! 1 = Some (Group None commands)
    /\ commands = {["tui" := 2]}
    /\ ~ (exists k, commands !! k = Some 0).
Proof.
  exists [tui_named_command; Group None {["tui" := 2]};
          tui_command 0 "TUI Mode"], {["tui" := 2]}.
  split; [|split; [reflexivity|split; [reflexivity|]]].
  - unfold tui, tui_named_command. cbn.
    unfold command, alloc, add_command. cbn.
    by rewrite insert_empty, insert_singleton_eq.
  - intros [k Hk]. apply lookup_singleton_Some in Hk as [_ Hk]. discriminate.
Qed.

(** A command without a name cannot be added to the new group. *)
Lemma tui_unnamed_command (name : string) (callback : option Callback) :
  tui name [Command None callback] 0 = Raise (TypeError "Command has no name.").
Proof. reflexivity. Qed.

End TuiFacts.

(** ** The screen and the application *)

Section AppFacts.
Context `{RunCommand} `{Rich}.
Import TextualClick.


Lemma last_edit_snoc (events : list Event) (ev : Event) :
  last_edit (events ++ [ev]) = next_edit (last_edit events) ev.
Proof. unfold last_edit. by rewrite fold_left_app. Qed.

Lemma handling_true (self : t) :
  handling self = true <-> exit_called self = false /\ error self = None.
Proof.
  unfold handling, stopped.
  destruct (exit_called self), (error self); cbn; split; try done;
    by intros [? ?].
Qed.

Lemma refresh_for_node_fields (screen : CommandBuilder.t) (node : TreeNode) :
  let screen' := CommandBuilder.refresh_for_node screen node in
  CommandBuilder.is_grouped_cli screen' = CommandBuilder.is_grouped_cli screen
  /\ CommandBuilder.click_app_name screen'
     = CommandBuilder.click_app_name screen
  /\ CommandBuilder.command_data screen' = CommandBuilder.command_data screen
  /\ CommandBuilder.selected_command_schema screen' = Some (node_data node)
  /\ CommandBuilder.form_body screen' = Some (node_data node)
  /\ CommandBuilder.exec_preview screen'
     = match CommandBuilder.command_data screen with
       | Some d =>
           "$ " +:+ (CommandBuilder.click_app_name screen +:+ " ")
             +:+ to_cli_string d (negb (CommandBuilder.is_grouped_cli screen))
       | None => CommandBuilder.exec_preview screen
       end.
Proof.
  destruct screen as [[d|] grouped app_name schema preview form];
    by repeat split.
Qed.

Lemma update_command_data_fields (screen : CommandBuilder.t)
    (d : UserCommandData) :
  let handled := CommandBuilder.update_command_data screen d in
  CommandBuilder.is_grouped_cli (fst handled)
  = CommandBuilder.is_grouped_cli screen
  /\ CommandBuilder.click_app_name (fst handled)
     = CommandBuilder.click_app_name screen
  /\ CommandBuilder.command_data (fst handled) = Some d
  /\ CommandBuilder.selected_command_schema (fst handled)
     = CommandBuilder.selected_command_schema screen
  /\ match CommandBuilder.selected_command_schema screen with
     | Some _ =>
         snd handled = None
         /\ CommandBuilder.exec_preview (fst handled)
            = "$ " +:+ (CommandBuilder.click_app_name screen +:+ " ")
                +:+ to_cli_string d
                      (negb (CommandBuilder.is_grouped_cli screen))
     | None =>
         snd handled <> None
         /\ CommandBuilder.exec_preview (fst handled)
            = CommandBuilder.exec_preview screen
     end.
Proof.
  destruct screen as [data grouped app_name [schema|] preview form];
    by repeat split.
Qed.

Lemma on_screen_selected (self : t) (screen : CommandBuilder.t)
    (below : list CommandBuilder.t) (node : TreeNode) :
  screen_stack self = screen :: below ->
  on_screen (fun s => CommandBuilder.selected_command_changed s node) self
  = set_screen_stack self
      (CommandBuilder.refresh_for_node screen node :: below).
Proof. intros Hs. unfold on_screen. by rewrite Hs. Qed.

Lemma on_screen_changed (self : t) (screen : CommandBuilder.t)
    (below : list CommandBuilder.t) (d : UserCommandData) :
  screen_stack self = screen :: below ->
  on_screen (fun s => CommandBuilder.update_command_data s d) self
  = stop_on
      (set_screen_stack self
         (fst (CommandBuilder.update_command_data screen d) :: below))
      (snd (CommandBuilder.update_command_data screen d)).
Proof.
  intros Hs. unfold on_screen. rewrite Hs.
  by destruct (CommandBuilder.update_command_data screen d).
Qed.

(** A handler of the screen leaves the attributes of the application
    alone. *)
Lemma on_screen_frame
    (handler : CommandBuilder.t -> CommandBuilder.t * option exn) (self : t) :
  execute_on_exit (on_screen handler self) = execute_on_exit self
  /\ exit_called (on_screen handler self) = exit_called self
  /\ is_grouped_cli (on_screen handler self) = is_grouped_cli self
  /\ post_run_command (on_screen handler self) = post_run_command self
  /\ app_name (on_screen handler self) = app_name self.
Proof.
  unfold on_screen. destruct (screen_stack self) as [|screen below]; [done|].
  by destruct (handler screen) as [screen' [e|]].
Qed.

(** What an event other than a selection or an edit can change: the two
    flags of a commit, and nothing unless the application is handling. *)
Lemma deliver_app_event (self : t) (ev : Event) :
  match ev with
  | Tree_NodeHighlighted _ | CommandForm_Changed _ => True
  | _ =>
      screen_stack (deliver self ev) = screen_stack self
      /\ post_run_command (deliver self ev) = post_run_command self
      /\ error (deliver self ev) = error self
      /\ is_grouped_cli (deliver self ev) = is_grouped_cli self
      /\ app_name (deliver self ev) = app_name self
      /\ (exit_called self = true -> exit_called (deliver self ev) = true)
      /\ (execute_on_exit self = true ->
          execute_on_exit (deliver self ev) = true)
      /\ (execute_on_exit (deliver self ev) = true ->
          execute_on_exit self = true \/ is_commit ev = true)
      /\ (execute_on_exit (deliver self ev) = true ->
          exit_called (deliver self ev) = true
          \/ execute_on_exit self = true /\ deliver self ev = self)
      /\ (handling (deliver self ev) = true ->
          handling self = true /\ deliver self ev = self)
  end.
Proof.
  destruct self as [c prc g x n stack ex err].
  destruct ev as [node|d| | | |button_id|]; [done|done|..];
    unfold deliver, handling, stopped, on_button_pressed; cbn;
    destruct ex, err as [e|]; cbn;
    try (destruct (decide (button_id = Some "home-exec-button")) as [Hid|Hid];
         cbn; rewrite ?(bool_decide_eq_true_2 _ Hid));
    repeat split; try done; auto.
Qed.

Lemma update_command_to_run_fields (self : t) (d : UserCommandData) :
  is_grouped_cli (update_command_to_run self d) = is_grouped_cli self
  /\ app_name (update_command_to_run self d) = app_name self
  /\ execute_on_exit (update_command_to_run self d) = execute_on_exit self
  /\ exit_called (update_command_to_run self d) = exit_called self
  /\ screen_stack (update_command_to_run self d) = screen_stack self
  /\ post_run_command (update_command_to_run self d)
     = to_cli_args d (negb (is_grouped_cli self)).
Proof. by destruct self. Qed.

Lemma tracks_mount (the_cli : Click.Obj) (arg info : string)
    (query : CursorQuery) :
  tracks the_cli info (on_mount (__init__ the_cli arg info) query) None.
Proof.
  unfold tracks. destruct query as [|[node|]]; cbn;
    (repeat split; [discriminate|]); eexists; repeat split; try done.
Qed.

Lemma tracks_deliver (the_cli : Click.Obj) (info : string) (self : t)
    (edit : option UserCommandData) (ev : Event) :
  tracks the_cli info self edit ->
  tracks the_cli info (deliver self ev) (next_edit edit ev).
Proof.
  intros (Hg & Hn & Hx & Hp & screen & Hs & Hsg & Hsn & Hd & Hprev & Hsel).
  destruct ev as [node|d| | | |button_id|].
  - cbn [deliver next_edit].
    rewrite (on_screen_selected self screen [] node Hs).
    destruct (refresh_for_node_fields screen node)
      as (Hfg & Hfn & Hfd & Hfs & _ & Hfp).
    unfold tracks. cbn. repeat split; try done.
    eexists. split; [reflexivity|].
    rewrite Hfg, Hfn, Hfd, Hfs, Hfp, Hd. repeat split; try done.
    destruct edit as [d|]; cbn; [by rewrite Hsg, Hsn|].
    rewrite Hprev. by destruct (CommandBuilder.selected_command_schema screen).
  - cbn [deliver next_edit].
    destruct (on_screen_frame
                (fun s => CommandBuilder.update_command_data s d) self)
      as (Hox & Hoc & Hog & Hop & Hon).
    rewrite (on_screen_changed self screen [] d Hs) in *.
    destruct (update_command_data_fields screen d)
      as (Hfg & Hfn & Hfd & Hfs & Hcase).
    destruct (CommandBuilder.update_command_data screen d)
      as [screen' raised]. cbn [fst snd] in *.
    set (s1 := stop_on (set_screen_stack self [screen']) raised) in *.
    assert (Hstack : screen_stack s1 = [screen'])
      by (unfold s1; by destruct raised).
    assert (Hscreen : CommandBuilder.exec_preview screen'
              = match CommandBuilder.selected_command_schema screen' with
                | Some _ =>
                    preview_of info (Click.isinstance_Group the_cli) (Some d)
                | None => ""
                end).
    { rewrite Hfs. destruct (CommandBuilder.selected_command_schema screen).
      - destruct Hcase as [_ ->]. cbn. by rewrite Hsg, Hsn.
      - destruct Hcase as [_ ->]. exact Hprev. }
    assert (Hselected : error s1 = None ->
              CommandBuilder.selected_command_schema screen' <> None).
    { rewrite Hfs. destruct (CommandBuilder.selected_command_schema screen);
        [done|]. destruct Hcase as [Hraised _]. unfold s1.
      by destruct raised. }
    assert (Herr : error (update_command_to_run s1 d) = error s1) by done.
    clearbody s1.
    destruct (handling s1) eqn:Hh; unfold tracks.
    + destruct (update_command_to_run_fields s1 d)
        as (Ug & Un & Ux & Uc & Us & Up).
      rewrite Ug, Un, Ux, Uc, Us, Up, Herr, Hog, Hon, Hox, Hoc, Hstack.
      repeat split; try done.
      * intros _. cbn. by rewrite Hg.
      * exists screen'. rewrite Hfg, Hfn. repeat split; try done.
        intros He _. by apply Hselected.
    + rewrite Hog, Hon, Hox, Hoc, Hstack, Hh. repeat split; try done.
      exists screen'. rewrite Hfg, Hfn. repeat split; try done.
      intros He _. by apply Hselected.
  - pose proof (deliver_app_event self Key_ctrl_r)
      as (Es & Ep & Ee & Eg & En & _ & _ & _ & Ex & Eh).
    unfold tracks. cbn [next_edit]. rewrite Es, Ep, Ee, Eg, En.
    repeat split; try done.
    + intros Hxe. destruct (Ex Hxe) as [|[Hxs ->]]; auto.
    + intros Hh. apply Hp. by apply Eh.
    + by exists screen.
  - pose proof (deliver_app_event self Key_ctrl_t)
      as (Es & Ep & Ee & Eg & En & _ & _ & _ & Ex & Eh).
    unfold tracks. cbn [next_edit]. rewrite Es, Ep, Ee, Eg, En.
    repeat split; try done.
    + intros Hxe. destruct (Ex Hxe) as [|[Hxs ->]]; auto.
    + intros Hh. apply Hp. by apply Eh.
    + by exists screen.
  - pose proof (deliver_app_event self Key_ctrl_i)
      as (Es & Ep & Ee & Eg & En & _ & _ & _ & Ex & Eh).
    unfold tracks. cbn [next_edit]. rewrite Es, Ep, Ee, Eg, En.
    repeat split; try done.
    + intros Hxe. destruct (Ex Hxe) as [|[Hxs ->]]; auto.
    + intros Hh. apply Hp. by apply Eh.
    + by exists screen.
  - pose proof (deliver_app_event self (Button_Pressed button_id))
      as (Es & Ep & Ee & Eg & En & _ & _ & _ & Ex & Eh).
    unfold tracks. cbn [next_edit]. rewrite Es, Ep, Ee, Eg, En.
    repeat split; try done.
    + intros Hxe. destruct (Ex Hxe) as [|[Hxs ->]]; auto.
    + intros Hh. apply Hp. by apply Eh.
    + by exists screen.
  - pose proof (deliver_app_event self Quit)
      as (Es & Ep & Ee & Eg & En & _ & _ & _ & Ex & Eh).
    unfold tracks. cbn [next_edit]. rewrite Es, Ep, Ee, Eg, En.
    repeat split; try done.
    + intros Hxe. destruct (Ex Hxe) as [|[Hxs ->]]; auto.
    + intros Hh. apply Hp. by apply Eh.
    + by exists screen.
Qed.

Lemma tracks_fold (the_cli : Click.Obj) (info : string) (events : list Event) :
  forall self edit,
    tracks the_cli info self edit ->
    tracks the_cli info (fold_left deliver events self)
      (fold_left next_edit events edit).
Proof.
  induction events as [|ev events IH]; intros self edit Ht; [done|].
  cbn [fold_left]. by apply IH, tracks_deliver.
Qed.

Lemma tracks_run (the_cli : Click.Obj) (arg info : string)
    (query : CursorQuery) (events : list Event) :
  tracks the_cli info (super_run (__init__ the_cli arg info) query events)
    (last_edit events).
Proof. apply tracks_fold, tracks_mount. Qed.

(** Case analysis of one delivery, on the event, on the two conditions
    of [handling] and on the top screen. *)
Ltac deliver_cases self ev :=
  let button_id := fresh "button_id" in
  destruct self as [? ? ? ? ? [|[? ? ? [?|] ? ?] ?] [|] [?|]];
  destruct ev as [?|?| | | |button_id|];
  unfold deliver, handling, stopped, on_screen, on_button_pressed,
    action_focus_command_tree, action_show_command_info; cbn;
  try (destruct (decide (button_id = Some "home-exec-button")) as [Hid|Hid];
       cbn; rewrite ?(bool_decide_eq_true_2 _ Hid),
              ?(bool_decide_eq_false_2 _ Hid)).

(** Once the application has stopped handling, it does not start again. *)
Lemma handling_deliver (self : t) (ev : Event) :
  handling (deliver self ev) = true -> handling self = true.
Proof. deliver_cases self ev; done. Qed.

(** While the application is not handling, its own attributes stay. *)
Lemma deliver_idle (self : t) (ev : Event) :
  handling self = false ->
  post_run_command (deliver self ev) = post_run_command self
  /\ execute_on_exit (deliver self ev) = execute_on_exit self
  /\ exit_called (deliver self ev) = exit_called self.
Proof. deliver_cases self ev; done. Qed.

Lemma is_grouped_cli_deliver (self : t) (ev : Event) :
  is_grouped_cli (deliver self ev) = is_grouped_cli self.
Proof. deliver_cases self ev; done. Qed.

(** No handler takes a commit back. *)
Lemma flags_deliver (self : t) (ev : Event) :
  (execute_on_exit self = true -> execute_on_exit (deliver self ev) = true)
  /\ (exit_called self = true -> exit_called (deliver self ev) = true).
Proof. deliver_cases self ev; done. Qed.

(** [execute_on_exit] is only ever set by a commit action. *)
Lemma execute_on_exit_deliver (self : t) (ev : Event) :
  execute_on_exit (deliver self ev) = true ->
  execute_on_exit self = true \/ is_commit ev = true.
Proof. deliver_cases self ev; auto. Qed.

(** The command to run is only ever set by an edit, from its data, and
    only while the application is handling. *)
Lemma post_run_command_deliver (self : t) (ev : Event) :
  post_run_command (deliver self ev) = post_run_command self
  \/ exists d,
       ev = CommandForm_Changed d
       /\ handling self = true
       /\ post_run_command (deliver self ev)
          = to_cli_args d (negb (is_grouped_cli self)).
Proof. deliver_cases self ev; eauto. Qed.




Lemma execute_on_exit_fold (events : list Event) :
  forall self,
    execute_on_exit (fold_left deliver events self) = true ->
    execute_on_exit self = true
    \/ Exists (fun ev => is_commit ev = true) events.
Proof.
  induction events as [|ev events IH]; intros self Hx; [by left|].
  cbn [fold_left] in Hx. destruct (IH _ Hx) as [Hnow | Hlater].
  - destruct (execute_on_exit_deliver self ev Hnow) as [Hself | Hcommit];
      [by left | right; by constructor].
  - right. by constructor.
Qed.

Lemma is_grouped_cli_fold (events : list Event) :
  forall self,
    is_grouped_cli (fold_left deliver events self) = is_grouped_cli self.
Proof.
  induction events as [|ev events IH]; intros self; [done|].
  cbn [fold_left]. by rewrite IH, is_grouped_cli_deliver.
Qed.

Lemma post_run_command_fold (events : list Event) :
  forall self,
    post_run_command (fold_left deliver events self) = post_run_command self
    \/ exists d,
         In (CommandForm_Changed d) events
         /\ post_run_command (fold_left deliver events self)
            = to_cli_args d (negb (is_grouped_cli self)).
Proof.
  induction events as [|ev events IH]; intros self; [by left|].
  cbn [fold_left].
  destruct (IH (deliver self ev)) as [Hsame | (d & Hin & Hd)].
  - rewrite Hsame.
    destruct (post_run_command_deliver self ev) as [Hkept | (d & -> & _ & Hd)];
      [by left|].
    right. exists d. split; [by left | done].
  - right. exists d. split; [by right|].
    by rewrite Hd, is_grouped_cli_deliver.
Qed.

(** Events that report no edit leave the command to run as it is. *)
Lemma no_edit_fold (events : list Event) :
  Forall (fun ev => is_edit ev = false) events ->
  forall self,
    post_run_command (fold_left deliver events self) = post_run_command self.
Proof.
  induction 1 as [|ev events Hev _ IH]; intros self; [done|].
  cbn [fold_left]. rewrite IH.
  destruct (post_run_command_deliver self ev) as [Hkept | (d & -> & _)];
    [done | discriminate Hev].
Qed.

(** Once the application has stopped handling, its attributes stay through
    every later event. *)
Lemma idle_fold (events : list Event) :
  forall self,
    handling self = false ->
    handling (fold_left deliver events self) = false
    /\ post_run_command (fold_left deliver events self)
       = post_run_command self
    /\ execute_on_exit (fold_left deliver events self) = execute_on_exit self
    /\ exit_called (fold_left deliver events self) = exit_called self.
Proof.
  induction events as [|ev events IH]; intros self Hidle; [done|].
  cbn [fold_left].
  assert (Hnext : handling (deliver self ev) = false).
  { destruct (handling (deliver self ev)) eqn:Hh; [|done].
    apply handling_deliver in Hh. congruence. }
  destruct (IH _ Hnext) as (Hh & Hp & Hx & Hc).
  destruct (deliver_idle self ev Hidle) as (Hp' & Hx' & Hc').
  repeat split; congruence.
Qed.


Lemma final_run (self : t) (query : CursorQuery) (events : list Event) :
  final (run self query events) = super_run self query events.
Proof.
  unfold run. destruct (post_run_command _); cbn; [done|].
  destruct (execute_on_exit _); cbn; [|done].
  by destruct (console_print _).
Qed.

Lemma launched_run (self : t) (query : CursorQuery) (events : list Event) :
  post_run_command (super_run self query events) = [] ->
  launched (run self query events) = None.
Proof. intros Hp. unfold run. by rewrite Hp. Qed.


(** C4: [run] calls [os.execvp] only when a commit action was among the
    events, [exit()] was called with [execute_on_exit] set, the command
    to run, produced from the data of an edit, is not empty, and the
    console accepted the markup of the "Running" line; the call names
    [app_name] and passes [app_name] followed by that command.  In every
    other run no call is made and nothing is printed: then
    [execute_on_exit] is unset, or the command is empty, or the console
    rejected the markup. *)
Theorem launch_only_on_commit (the_cli : Click.Obj) (arg info : string)
    (query : CursorQuery) (events : list Event) :
  let out := run (__init__ the_cli arg info) query events in
  let markup :=
    "Running [b cyan]" +:+ info +:+ " "
      +:+ Shlex.join (post_run_command (final out)) +:+ "[/]" in
  match launched out with
  | Some call =>
      Exists (fun ev => is_commit ev = true) events
      /\ execute_on_exit (final out) = true
      /\ exit_called (final out) = true
      /\ post_run_command (final out) <> []
      /\ (exists d,
            In (CommandForm_Changed d) events
            /\ post_run_command (final out)
               = to_cli_args d (negb (Click.isinstance_Group the_cli)))
      /\ (exists printed,
            console_print markup = Some printed /\ console out = [printed])
      /\ file call = info
      /\ args call = info :: post_run_command (final out)
  | None =>
      console out = []
      /\ (execute_on_exit (final out) = false
          \/ post_run_command (final out) = []
          \/ console_print markup = None)
  end.
Proof.
  intros out markup. unfold markup, out. clear out markup.
  rewrite final_run. unfold run.
  pose proof (tracks_run the_cli arg info query events)
    as (_ & Hname & Hexit & _).
  pose proof (execute_on_exit_fold events
                (on_mount (__init__ the_cli arg info) query)) as Hcommit.
  pose proof (post_run_command_fold events
                (on_mount (__init__ the_cli arg info) query)) as Hedit.
  fold (super_run (__init__ the_cli arg info) query events) in Hcommit, Hedit.
  assert (Hmount : execute_on_exit (on_mount (__init__ the_cli arg info) query)
                   = false
                   /\ post_run_command (on_mount (__init__ the_cli arg info) query)
                      = []
                   /\ is_grouped_cli (on_mount (__init__ the_cli arg info) query)
                      = Click.isinstance_Group the_cli)
    by (by destruct query as [|[node|]]).
  destruct Hmount as (Hx0 & Hp0 & Hg0). rewrite Hp0, Hg0 in Hedit.
  set (self := super_run _ _ _) in *.
  destruct (post_run_command self) as [|token command] eqn:Hpost; cbn.
  - split; [done|]. right. by left.
  - destruct (execute_on_exit self) eqn:Hx; cbn.
    + rewrite Hname.
      destruct (console_print _) as [printed|] eqn:Hprint; cbn.
      * repeat split; try done.
        -- destruct (Hcommit eq_refl) as [Hinit | Hsome]; [congruence|done].
        -- by apply Hexit.
        -- destruct Hedit as [Hnone | Hsome]; [done|exact Hsome].
        -- by exists printed.
      * split; [done|]. right. by right.
    + split; [done|]. by left.
Qed.



End AppFacts.

(** ** The serializer and the user data *)

Section ModelFacts.
Context `{FloatText}.
Import Model.

Lemma flag_option_tokens (data : UserCommandData) (p : ParameterSchema) :
  kind p = FLAG ->
  option_tokens data p = (if flag_is_set data p then [name p] else [])
  /\ argument_tokens data p = [].
Proof.
  intros Hk. unfold option_tokens, argument_tokens. by rewrite Hk.
Qed.

Lemma flag_is_set_spec (data : UserCommandData) (p : ParameterSchema) :
  flag_is_set data p = true <-> values data !! name p = Some (Flag true).
Proof.
  unfold flag_is_set.
  destruct (values data !! name p) as [[[|]|v|vs]|]; split; congruence.
Qed.

Lemma multiple_option_tokens (data : UserCommandData) (p : ParameterSchema)
    (vs : list Value) :
  kind p = OPTION -> multiplicity p = multiple ->
  values data !! name p = Some (Multiple vs) ->
  option_tokens data p = flat_map (fun v => [name p; render v]) vs
  /\ argument_tokens data p = [].
Proof.
  intros Hk Hm Hv. unfold option_tokens, argument_tokens, stored_sequence.
  by rewrite Hk, Hm, Hv.
Qed.

Lemma pairs_length {A : Type} (flag : string) (f : A -> string) (vs : list A) :
  length (flat_map (fun v => [flag; f v]) vs) = 2 * length vs.
Proof. induction vs as [|v vs IH]; cbn; lia. Qed.

Lemma pairs_lookup {A : Type} (flag : string) (f : A -> string) (vs : list A)
    (i : nat) (v : A) :
  vs !! i = Some v ->
  flat_map (fun v => [flag; f v]) vs !! (2 * i) = Some flag
  /\ flat_map (fun v => [flag; f v]) vs !! (2 * i + 1) = Some (f v).
Proof.
  revert i. induction vs as [|x vs IH]; intros [|i] Hi; try done.
  - cbn in Hi. by simplify_eq.
  - cbn in Hi. destruct (IH i Hi) as [Hflag Hval].
    replace (2 * S i) with (S (S (2 * i))) by lia.
    replace (S (S (2 * i)) + 1) with (S (S (2 * i + 1))) by lia.
    by cbn.
Qed.

Lemma serialize_split (path : list CommandSchema) (data : UserCommandData)
    (include_root : bool) (before after : list ParameterSchema)
    (p : ParameterSchema) (here : list string) :
  leaf_parameters path = (before ++ p :: after)%list ->
  option_tokens data p = here -> argument_tokens data p = [] ->
  argv (serialize path data include_root)
  = (path_tokens path include_root
       ++ flat_map (option_tokens data) before
       ++ here
       ++ flat_map (option_tokens data) after
       ++ flat_map (argument_tokens data) (before ++ after))%list.
Proof.
  intros Hps Hhere Hargs. unfold serialize. cbn [argv]. rewrite Hps.
  rewrite !flat_map_app. cbn [flat_map]. rewrite Hhere, Hargs. cbn [app].
  by rewrite <- !app_assoc.
Qed.

(** C6: in the argument vector a FLAG parameter of the leaf command
    contributes its flag token alone when its stored value is present and
    true, and nothing at all otherwise; no value token is emitted for it,
    neither among the options nor among the arguments. *)
Theorem flag_serialization (path : list CommandSchema) (data : UserCommandData)
    (include_root : bool) (before after : list ParameterSchema)
    (p : ParameterSchema) :
  leaf_parameters path = (before ++ p :: after)%list ->
  kind p = FLAG ->
  (flag_is_set data p = true <-> values data !! name p = Some (Flag true))
  /\ argv (serialize path data include_root)
     = (path_tokens path include_root
          ++ flat_map (option_tokens data) before
          ++ (if flag_is_set data p then [name p] else [])
          ++ flat_map (option_tokens data) after
          ++ flat_map (argument_tokens data) (before ++ after))%list.
Proof.
  intros Hps Hk. destruct (flag_option_tokens data p Hk) as [Hopt Harg].
  split; [apply flag_is_set_spec|].
  exact (serialize_split path data include_root before after p _
           Hps Hopt Harg).
Qed.

(** C7: an OPTION parameter with multiplicity [multiple] that holds a
    stored sequence of N values contributes 2N tokens to the argument
    vector: for each value in stored order, the flag token immediately
    followed by the rendering of that value. *)
Theorem repeated_option_serialization (path : list CommandSchema)
    (data : UserCommandData) (include_root : bool)
    (before after : list ParameterSchema) (p : ParameterSchema)
    (vs : list Value) :
  leaf_parameters path = (before ++ p :: after)%list ->
  kind p = OPTION -> multiplicity p = multiple ->
  values data !! name p = Some (Multiple vs) ->
  let emitted := flat_map (fun v => [name p; render v]) vs in
  argv (serialize path data include_root)
  = (path_tokens path include_root
       ++ flat_map (option_tokens data) before
       ++ emitted
       ++ flat_map (option_tokens data) after
       ++ flat_map (argument_tokens data) (before ++ after))%list
  /\ length emitted = 2 * length vs
  /\ forall i v, vs !! i = Some v ->
       emitted !! (2 * i) = Some (name p)
       /\ emitted !! (2 * i + 1) = Some (render v).
Proof.
  intros Hps Hk Hm Hv emitted.
  destruct (multiple_option_tokens data p vs Hk Hm Hv) as [Hopt Harg].
  split.
  { exact (serialize_split path data include_root before after p _
             Hps Hopt Harg). }
  split; [apply pairs_length|].
  intros i v. apply pairs_lookup.
Qed.

Lemma find_parameter_none (data : UserCommandData) (n : string) :
  (forall p, p ∈ leaf_parameters (path data) -> name p <> n) ->
  find_parameter data n = None.
Proof.
  unfold find_parameter. induction (leaf_parameters (path data)) as [|p ps IH];
    intros Hall; [done|].
  cbn [List.find]. rewrite bool_decide_eq_false_2 by (apply Hall; left).
  apply IH. intros q Hq. apply Hall. by right.
Qed.

Lemma coerce_text_none (p : ParameterSchema) (raw : string) :
  coerce_type (value_type p) raw = None
  \/ (exists cs, choices p = Some cs /\ raw ∉ cs) ->
  coerce_text p raw = None.
Proof.
  unfold coerce_text, in_choices. intros [Hty | (cs & Hcs & Hout)].
  - rewrite Hty. destruct (choices p) as [cs|]; [|done].
    by destruct (bool_decide (raw ∈ cs)).
  - rewrite Hcs. by rewrite bool_decide_eq_false_2.
Qed.

Lemma coerce_none (p : ParameterSchema) (input : Input) (raw : string) :
  input = Input_text raw
  \/ (exists raws, input = Input_texts raws /\ raw ∈ raws) ->
  coerce_text p raw = None ->
  coerce p input = None.
Proof.
  intros [-> | (raws & -> & Hin)] Hraw; unfold coerce.
  - rewrite Hraw. by destruct (kind p), (multiplicity p).
  - assert (Hseq : mapM (coerce_text p) raws = None).
    { apply mapM_None_2, Exists_exists. by exists raw. }
    rewrite Hseq. by destruct (kind p), (multiplicity p).
Qed.

(** C8: when [name] is not a parameter of the associated command, or a
    value handed in fails coercion to the value type or lies outside the
    declared choices, [set] hands back the data exactly as they were and
    tells the caller of the failure; what [get] answers for [name] is what
    it answered before. *)
Theorem set_rejects (data : UserCommandData) (n : string) (input : Input) :
  (forall p, p ∈ leaf_parameters (path data) -> name p <> n)
  \/ (exists p raw,
        find_parameter data n = Some p
        /\ (input = Input_text raw
            \/ exists raws, input = Input_texts raws /\ raw ∈ raws)
        /\ (coerce_type (value_type p) raw = None
            \/ exists cs, choices p = Some cs /\ raw ∉ cs)) ->
  fst (set data n input) = data
  /\ (snd (set data n input) = UnknownParameter n
      \/ snd (set data n input) = ValidationError n)
  /\ get (fst (set data n input)) n = get data n.
Proof.
  intros [Hunknown | (p & raw & Hp & Hinput & Hbad)]; unfold set.
  - rewrite (find_parameter_none data n Hunknown). cbn. auto.
  - rewrite Hp, (coerce_none p input raw Hinput (coerce_text_none p raw Hbad)).
    cbn. auto.
Qed.

(** The serializer puts the name of the root first exactly when
    [include_root] is true; the names below the root always follow. *)
Lemma serialize_root (root : CommandSchema) (below : list CommandSchema)
    (data : UserCommandData) (include_root : bool) :
  argv (serialize (root :: below) data include_root)
  = ((if include_root then [command_name root] else [])
       ++ argv (serialize (root :: below) data false))%list.
Proof. unfold serialize. cbn. by destruct include_root. Qed.

End ModelFacts.

(** ** The root name, from the kind of CLI to the argument vector *)

Section RootNameFacts.
Context `{RunCommand} `{FloatText}.
Import TextualClick.

(** C1 (amended): the serializer emits the name of the root command
    exactly when [include_root] is true, and at preview time and at commit
    time alike [include_root] is true exactly when the CLI is not a group:
    a single command is serialised with its root name, a group without.
    The command to run follows an edit that the application handled, with
    no [exit()] and no raise before it; the preview follows it as soon as
    a command is selected. *)
Theorem include_root_follows_cli_kind (the_cli : Click.Obj)
    (arg info : string) (query : CursorQuery) (events : list Event)
    (d : UserCommandData)
    (root : Model.CommandSchema) (below : list Model.CommandSchema)
    (data : Model.UserCommandData) (include_root : bool) :
  let after :=
    super_run (__init__ the_cli arg info) query
      (events ++ [CommandForm_Changed d]) in
  exit_called after = false ->
  error after = None ->
  post_run_command after
  = (if Click.isinstance_Group the_cli
     then to_cli_args d false else to_cli_args d true)
  /\ (exists top,
       screen_stack after = [top]
       /\ CommandBuilder.exec_preview top
          = "$ " +:+ (info +:+ " ")
              +:+ (if Click.isinstance_Group the_cli
                   then to_cli_string d false else to_cli_string d true))
  /\ Model.argv (Model.serialize (root :: below) data include_root)
     = ((if include_root then [Model.command_name root] else [])
          ++ map Model.command_name below
          ++ flat_map (Model.option_tokens data)
               (Model.leaf_parameters (root :: below))
          ++ flat_map (Model.argument_tokens data)
               (Model.leaf_parameters (root :: below)))%list.
Proof.
  intros after Hc He.
  pose proof (tracks_run the_cli arg info query
                (events ++ [CommandForm_Changed d]))
    as (_ & _ & _ & Hcmd & top & Hs & _ & _ & _ & Hprev & Hsel).
  fold after in Hs, Hcmd, Hsel.
  rewrite last_edit_snoc in Hcmd, Hprev, Hsel. cbn in Hcmd, Hprev, Hsel.
  split; [|split].
  - rewrite Hcmd by by apply handling_true.
    by destruct (Click.isinstance_Group the_cli).
  - exists top. split; [done|]. rewrite Hprev.
    destruct (CommandBuilder.selected_command_schema top) eqn:Hschema.
    + by destruct (Click.isinstance_Group the_cli).
    + by destruct (Hsel He).
  - unfold Model.serialize. cbn [Model.argv Model.path_tokens].
    by rewrite <- app_assoc.
Qed.

End RootNameFacts.

(** ** The examples, evaluated *)

Section ExampleFacts.
Import Model Examples TextualClick.
#[local] Existing Instance literal_floats.
#[local] Existing Instance run_command.
#[local] Existing Instance bracket_free_console.

Example deploy_argv :
  argv (serialize (path deploy_data) deploy_data true)
  = ["myapp"; "deploy"; "--env"; "prod"; "--force"; "web"].
Proof. vm_compute. reflexivity. Qed.

Example tagged_argv :
  argv (serialize (path tagged_data) tagged_data false)
  = ["deploy"; "--env"; "prod"; "--tag"; "a"; "--tag"; "b"; "--force"; "web"].
Proof. vm_compute. reflexivity. Qed.

Example set_outside_choices :
  set deploy_data "--color" (Input_text "blue")
  = (deploy_data, ValidationError "--color").
Proof. vm_compute. reflexivity. Qed.

Example set_integer :
  get (fst (set deploy_data "--count" (Input_text "007"))) "--count"
  = Some (Single (V_integer 7)).
Proof. vm_compute. reflexivity. Qed.

(** A value that holds a closing tag: the edit is recorded and the commit
    is made, yet the console rejects the "Running" line and nothing is
    launched. *)
Example closing_tag_no_launch :
  let data :=
    {| path := [hello_schema];
       values := <["--name" := Single (V_string "[/]")]> ∅ |} in
  let out :=
    run (__init__ hello_command "TUI Mode" "hello")
      (Cursor_node (Some hello_node))
      [CommandForm_Changed data; Key_ctrl_r] in
  execute_on_exit (final out) = true
  /\ post_run_command (final out) = ["hello"; "--name"; "[/]"]
  /\ Shlex.join (post_run_command (final out)) = "hello --name '[/]'"
  /\ launched out = None.
Proof. vm_compute. repeat split. Qed.

(** An edit that arrives after the commit: the screen stores it and
    shows its line, the application does not record it, and nothing is
    launched. *)
Example edit_after_commit :
  let out :=
    run (__init__ hello_command "TUI Mode" "hello")
      (Cursor_node (Some hello_node))
      [Key_ctrl_r; CommandForm_Changed hello_data] in
  execute_on_exit (final out) = true
  /\ post_run_command (final out) = []
  /\ map CommandBuilder.command_data (screen_stack (final out))
     = [Some hello_data]
  /\ map CommandBuilder.exec_preview (screen_stack (final out))
     = ["$ hello hello --name x"]
  /\ launched out = None.
Proof. vm_compute. repeat split. Qed.

(** C1 as stated fails: the single command [hello] is serialised with
    its root name, at preview and at commit, and the group [myapp]
    without it. *)
Lemma single_command_keeps_root_name :
  (post_run_command (final hello_run) = ["hello"; "--name"; "x"]
   /\ to_cli_args hello_data false = ["--name"; "x"]
   /\ map CommandBuilder.exec_preview (screen_stack (final hello_run))
      = ["$ hello hello --name x"]
   /\ launched hello_run
      = Some {| file := "hello"; args := ["hello"; "hello"; "--name"; "x"] |})
  /\ (post_run_command (final deploy_run)
      = ["deploy"; "--env"; "prod"; "--force"; "web"]
      /\ to_cli_args deploy_data true
         = ["myapp"; "deploy"; "--env"; "prod"; "--force"; "web"]
      /\ map CommandBuilder.exec_preview (screen_stack (final deploy_run))
         = ["$ myapp deploy --env prod --force web"]).
Proof. vm_compute. repeat split. Qed.


(** The FLAG [--force] of [deploy], set. *)
Lemma flag_serialization_witness :
  argv (serialize (path deploy_data) deploy_data true)
  = (["myapp"; "deploy"]
       ++ flat_map (option_tokens deploy_data) [env_option; tag_option]
       ++ (if flag_is_set deploy_data force_flag then ["--force"] else [])
       ++ flat_map (option_tokens deploy_data) [color_option; count_option;
                                               target_argument]
       ++ flat_map (argument_tokens deploy_data)
            [env_option; tag_option; color_option; count_option;
             target_argument])%list.
Proof.
  exact (proj2 (flag_serialization (path deploy_data) deploy_data true
                  [env_option; tag_option]
                  [color_option; count_option; target_argument] force_flag
                  eq_refl eq_refl)).
Defined.

(** The repeated option [--tag] of [deploy], holding two values. *)
Lemma repeated_option_serialization_witness :
  argv (serialize (path tagged_data) tagged_data true)
  = (["myapp"; "deploy"]
       ++ flat_map (option_tokens tagged_data) [env_option]
       ++ ["--tag"; "a"; "--tag"; "b"]
       ++ flat_map (option_tokens tagged_data)
            [force_flag; color_option; count_option; target_argument]
       ++ flat_map (argument_tokens tagged_data)
            [env_option; force_flag; color_option; count_option;
             target_argument])%list.
Proof.
  assert (Hstored : values tagged_data !! name tag_option
                    = Some (Multiple [V_string "a"; V_string "b"]))
    by (vm_compute; reflexivity).
  exact (proj1 (repeated_option_serialization (path tagged_data) tagged_data
                  true [env_option]
                  [force_flag; color_option; count_option; target_argument]
                  tag_option [V_string "a"; V_string "b"]
                  eq_refl eq_refl eq_refl Hstored)).
Defined.

(** A colour outside the declared choices. *)
Lemma set_rejects_witness :
  fst (set deploy_data "--color" (Input_text "blue")) = deploy_data
  /\ (snd (set deploy_data "--color" (Input_text "blue"))
      = UnknownParameter "--color"
      \/ snd (set deploy_data "--color" (Input_text "blue"))
         = ValidationError "--color")
  /\ get (fst (set deploy_data "--color" (Input_text "blue"))) "--color"
     = get deploy_data "--color".
Proof.
  apply (set_rejects deploy_data "--color" (Input_text "blue")).
  right. exists color_option, "blue".
  split; [reflexivity|]. split; [by left|].
  right. exists ["red"; "green"]. split; [reflexivity|].
  apply (bool_decide_eq_false _). vm_compute. reflexivity.
Defined.

(** A command line with a blank, an empty token and a quote in it. *)
Lemma display_string_round_trip_witness :
  Shlex.split (Shlex.join ["deploy"; "--env"; "us east"; ""; "it's"])
  = Some ["deploy"; "--env"; "us east"; ""; "it's"].
Proof.
  exact (proj1 (display_string_round_trip
                  ["deploy"; "--env"; "us east"; ""; "it's"])).
Defined.

(** The single command [hello], edited once. *)
Lemma include_root_follows_cli_kind_witness :
  post_run_command
    (super_run (__init__ hello_command "TUI Mode" "hello")
       (Cursor_node (Some hello_node)) [CommandForm_Changed hello_data])
  = to_cli_args hello_data true.
Proof.
  exact (proj1 (include_root_follows_cli_kind
                  (H := @run_command literal_floats) (H0 := literal_floats)
                  hello_command "TUI Mode" "hello"
                  (Cursor_node (Some hello_node)) [] hello_data
                  hello_schema [] hello_data true eq_refl eq_refl)).
Defined.



(** The run [hello_run]: committed, so launched. *)
Lemma launch_only_on_commit_witness :
  launched hello_run
  = Some {| file := "hello"; args := ["hello"; "hello"; "--name"; "x"] |}
  /\ Exists (fun ev => is_commit ev = true)
       [CommandForm_Changed hello_data; Key_ctrl_r].
Proof.
  pose proof (launch_only_on_commit (H := @run_command literal_floats)
                (H0 := bracket_free_console)
                hello_command "TUI Mode" "hello"
                (Cursor_node (Some hello_node))
                [CommandForm_Changed (H := @run_command literal_floats)
                   hello_data; Key_ctrl_r]) as Hrun.
  change (run _ _ _) with hello_run in Hrun. cbv zeta in Hrun.
  assert (Hlaunch : launched hello_run
    = Some {| file := "hello"; args := ["hello"; "hello"; "--name"; "x"] |})
    by (vm_compute; reflexivity).
  rewrite Hlaunch in Hrun. split; [exact Hlaunch | exact (proj1 Hrun)].
Defined.

End ExampleFacts.

(** * Further properties *)

(** ** The decorator on every kind of object *)

Section TuiCases.
Import Click.

(** The heap after decorating a group. *)
Lemma tui_on_group (name : string) (h : list Obj) (app : nat)
    (gname : option string) (commands : gmap string nat) :
  h !! app = Some (Group gname commands) ->
  tui name h app
  = Ok (app,
        <[app := Group gname (<["tui" := length h]> commands)]>
          (h ++ [tui_command app name])%list).
Proof.
  intros Happ. unfold tui. rewrite Happ. cbn [isinstance_Group].
  by rewrite (command_registers h app gname commands "tui" _ Happ).
Qed.

(** The heap after decorating a named command that is not a group. *)
Lemma tui_on_command (name : string) (h : list Obj) (app : nat) (n : string)
    (callback : option Callback) :
  h !! app = Some (Command (Some n) callback) ->
  tui name h app
  = Ok (length h,
        (h ++ [Group None (<["tui" := S (length h)]> {[n := app]});
               tui_command app name])%list).
Proof.
  intros Happ. pose proof (lookup_lt_Some _ _ _ Happ) as Hlt.
  unfold tui. rewrite Happ. cbn [isinstance_Group alloc].
  set (h1 := (h ++ [Group None ∅])%list).
  assert (Hg1 : h1 !! length h = Some (Group None ∅))
    by apply list_lookup_middle, eq_refl.
  assert (Hc1 : h1 !! app = Some (Command (Some n) callback))
    by by apply lookup_app_l_Some.
  unfold add_command at 1. rewrite Hg1, Hc1. cbn [obj_name mbind result_bind].
  set (h2 := <[length h := _]> h1).
  assert (Hh2 : h2 = (h ++ [Group None {[n := app]}])%list).
  { unfold h2, h1. rewrite insert_app_r_alt by lia.
    rewrite Nat.sub_diag. cbn. by rewrite insert_empty. }
  assert (Hg2 : h2 !! length h = Some (Group None {[n := app]}))
    by (rewrite Hh2; apply list_lookup_middle, eq_refl).
  rewrite (command_registers h2 (length h) None _ "tui" _ Hg2).
  cbn [mbind result_bind].
  assert (Hlen2 : length h2 = S (length h))
    by (rewrite Hh2, length_app; cbn; lia).
  rewrite Hlen2. fold (tui_command app name). do 2 f_equal.
  rewrite Hh2, <- app_assoc. rewrite insert_app_r_alt by lia.
  by rewrite Nat.sub_diag.
Qed.

(** The decorator on a command without a name. *)
Lemma tui_on_unnamed (name : string) (h : list Obj) (app : nat)
    (callback : option Callback) :
  h !! app = Some (Command None callback) ->
  tui name h app = Raise (TypeError "Command has no name.").
Proof.
  intros Happ. unfold tui. rewrite Happ. cbn [isinstance_Group alloc].
  unfold add_command.
  rewrite list_lookup_middle by done.
  by rewrite (lookup_app_l_Some _ _ _ _ Happ).
Qed.

(** X1: decorating a command that is not a group and has no name raises
    the [TypeError] of [add_command], whatever else the heap holds. *)
Theorem tui_unnamed_raises (name : string) (h : list Obj) (app : nat)
    (callback : option Callback) :
  h !! app = Some (Command None callback) ->
  tui name h app = Raise (TypeError "Command has no name.").
Proof. apply tui_on_unnamed. Qed.

Lemma tui_unnamed_raises_witness :
  tui "TUI Mode" [hello_command; Command None None] 1
  = Raise (TypeError "Command has no name.").
Proof.
  exact (tui_unnamed_raises "TUI Mode" [hello_command; Command None None] 1
           None eq_refl).
Defined.

(** X2: decorating a command that is itself named "tui" gives a new group
    whose only entry is the new TUI command: the decorated command is
    still in the heap, unchanged, but no name of the group leads to it. *)
Theorem tui_shadows_command_named_tui (name : string) (h : list Obj)
    (app : nat) (callback : option Callback) :
  h !! app = Some (Command (Some "tui") callback) ->
  exists h',
    tui name h app = Ok (length h, h')
    /\ h' !! length h = Some (Group None {["tui" := S (length h)]})
    /\ h' !! S (length h) = Some (tui_command app name)
    /\ h' !! app = Some (Command (Some "tui") callback)
    /\ (forall k, ({["tui" := S (length h)]} : gmap string nat) !! k
                  <> Some app).
Proof.
  intros Happ. pose proof (lookup_lt_Some _ _ _ Happ) as Hlt.
  rewrite (tui_on_command name h app "tui" callback Happ).
  rewrite insert_singleton_eq.
  eexists. split; [reflexivity|]. repeat split.
  - by apply list_lookup_middle.
  - rewrite lookup_app_r by lia.
    replace (S (length h) - length h) with 1 by lia. reflexivity.
  - by apply lookup_app_l_Some.
  - intros k Hk. apply lookup_singleton_Some in Hk as [_ Hk]. lia.
Qed.

Lemma tui_shadows_command_named_tui_witness :
  exists h',
    tui "TUI Mode" [hello_command; tui_named_command] 1 = Ok (2, h')
    /\ h' !! 2 = Some (Group None {["tui" := 3]}).
Proof.
  destruct (tui_shadows_command_named_tui "TUI Mode"
              [hello_command; tui_named_command] 1
              (Some (User_function "tui")) eq_refl)
    as (h' & Htui & Hgroup & _).
  exists h'. split; [exact Htui | exact Hgroup].
Defined.

(** X3: decorating a group keeps its name and every subcommand registered
    under another name than "tui"; the names of the group afterwards are
    the old ones and "tui", whether or not "tui" was taken before. *)
Theorem tui_keeps_other_subcommands (name : string) (h : list Obj) (app : nat)
    (gname : option string) (commands : gmap string nat) :
  h !! app = Some (Group gname commands) ->
  exists h' commands',
    tui name h app = Ok (app, h')
    /\ h' !! app = Some (Group gname commands')
    /\ (forall k, k <> "tui" -> commands' !! k = commands !! k)
    /\ commands' !! "tui" = Some (length h)
    /\ dom commands' = {["tui"]} ∪ dom commands
    /\ length h' = S (length h).
Proof.
  intros Happ. pose proof (lookup_lt_Some _ _ _ Happ) as Hlt.
  rewrite (tui_on_group name h app gname commands Happ).
  eexists _, (<["tui" := length h]> commands).
  split; [reflexivity|]. repeat split.
  - apply list_lookup_insert_eq. rewrite length_app. lia.
  - intros k Hk. by rewrite lookup_insert_ne.
  - apply lookup_insert_eq.
  - apply dom_insert_L.
  - rewrite length_insert, length_app. cbn. lia.
Qed.

Lemma tui_keeps_other_subcommands_witness :
  exists h' commands',
    tui "TUI Mode" [myapp_group] 0 = Ok (0, h')
    /\ h' !! 0 = Some (Group (Some "myapp") commands')
    /\ commands' !! "deploy" = Some 1.
Proof.
  destruct (tui_keeps_other_subcommands "TUI Mode" [myapp_group] 0
              (Some "myapp") (<["deploy" := 1]> (<["status" := 2]> ∅))
              eq_refl)
    as (h' & commands' & Htui & Hgroup & Hkept & _).
  exists h', commands'. split; [exact Htui|]. split; [exact Hgroup|].
  rewrite (Hkept "deploy") by discriminate. vm_compute. reflexivity.
Defined.

(** X4: decorating what the decorator returned returns the same object
    once more: the group gains no further name, "tui" now leads to the
    newest TUI command, and every other entry is as after the first
    decoration. *)
Theorem tui_twice (name name' : string) (h h1 : list Obj) (app g : nat) :
  tui name h app = Ok (g, h1) ->
  exists gname commands h2,
    h1 !! g = Some (Group gname commands)
    /\ commands !! "tui" = Some (length h1 - 1)
    /\ tui name' h1 g = Ok (g, h2)
    /\ h2 !! g = Some (Group gname (<["tui" := length h1]> commands))
    /\ dom (<["tui" := length h1]> commands) = dom commands
    /\ (forall k, k <> "tui" ->
        (<["tui" := length h1]> commands) !! k = commands !! k).
Proof.
  intros Htui.
  assert (Hfirst : exists gname commands,
            h1 !! g = Some (Group gname commands)
            /\ commands !! "tui" = Some (length h1 - 1)).
  { destruct (h !! app) as [o|] eqn:Happ;
      [|by unfold tui in Htui; rewrite Happ in Htui].
    pose proof (lookup_lt_Some _ _ _ Happ) as Hlt.
    destruct o as [[n|] callback | gname commands].
    - rewrite (tui_on_command name h app n callback Happ) in Htui.
      injection Htui as <- <-. eexists _, _. split.
      + by apply list_lookup_middle.
      + rewrite lookup_insert_eq. f_equal. rewrite length_app. cbn. lia.
    - by rewrite (tui_on_unnamed name h app callback Happ) in Htui.
    - rewrite (tui_on_group name h app gname commands Happ) in Htui.
      injection Htui as <- <-. eexists _, _. split.
      + apply list_lookup_insert_eq. rewrite length_app. lia.
      + rewrite lookup_insert_eq. f_equal.
        rewrite length_insert, length_app. cbn. lia. }
  destruct Hfirst as (gname & commands & Hg & Hold).
  pose proof (lookup_lt_Some _ _ _ Hg) as Hlt.
  exists gname, commands. eexists. split; [exact Hg|]. split; [exact Hold|].
  split; [apply (tui_on_group name' h1 g gname commands Hg)|].
  split; [|split].
  - apply list_lookup_insert_eq. rewrite length_app. lia.
  - rewrite dom_insert_L. apply subseteq_union_1_L, singleton_subseteq_l.
    by apply elem_of_dom_2 with (length h1 - 1).
  - intros k Hk. by rewrite lookup_insert_ne.
Qed.

Lemma tui_twice_witness :
  exists gname commands h2,
    [hello_command; Group None (<["tui" := 2]> {["hello" := 0]});
     tui_command 0 "TUI Mode"] !! 1 = Some (Group gname commands)
    /\ tui "again" [hello_command; Group None (<["tui" := 2]> {["hello" := 0]});
                    tui_command 0 "TUI Mode"] 1 = Ok (1, h2)
    /\ h2 !! 1 = Some (Group gname (<["tui" := 3]> commands)).
Proof.
  destruct (tui_twice "TUI Mode" "again" [hello_command]
              [hello_command; Group None (<["tui" := 2]> {["hello" := 0]});
               tui_command 0 "TUI Mode"] 0 1
              (tui_on_command "TUI Mode" [hello_command] 0 "hello"
                 (Some (User_function "hello")) eq_refl))
    as (gname & commands & h2 & Hg & _ & Htui & Hafter & _).
  exists gname, commands, h2. split; [exact Hg|]. split; [exact Htui|].
  exact Hafter.
Defined.

End TuiCases.

(** ** Runs of the application *)

Section AppCases.
Context `{RunCommand} `{Rich}.
Import TextualClick.

(** X5: no edit, no launch: when no [CommandForm.Changed] is among the
    events, [run] makes no [os.execvp] call, however often the user asked
    to close and run. *)
Theorem no_edit_no_launch (the_cli : Click.Obj) (arg info : string)
    (query : CursorQuery) (events : list Event) :
  (forall d, ~ In (CommandForm_Changed d) events) ->
  launched (run (__init__ the_cli arg info) query events) = None
  /\ post_run_command (final (run (__init__ the_cli arg info) query events))
     = [].
Proof.
  intros Hnone.
  assert (Hp : post_run_command
                 (super_run (__init__ the_cli arg info) query events) = []).
  { destruct (post_run_command_fold events
                (on_mount (__init__ the_cli arg info) query))
      as [Hsame | (d & Hin & _)].
    - unfold super_run. rewrite Hsame. by destruct query as [|[node|]].
    - by destruct (Hnone d). }
  split; [by apply launched_run|]. by rewrite final_run.
Qed.

(** X6: an edit whose command is empty cannot be launched: when the
    application handled an edit, with no [exit()] and no raise up to and
    including it, whose data serialise to the empty list, and no other
    edit follows, [run] makes no [os.execvp] call even after a commit. *)
Theorem empty_command_no_launch (the_cli : Click.Obj) (arg info : string)
    (query : CursorQuery) (before after : list Event) (d : UserCommandData) :
  let handled :=
    super_run (__init__ the_cli arg info) query
      (before ++ [CommandForm_Changed d]) in
  exit_called handled = false ->
  error handled = None ->
  Forall (fun ev => is_edit ev = false) after ->
  to_cli_args d (negb (Click.isinstance_Group the_cli)) = [] ->
  launched
    (run (__init__ the_cli arg info) query
       (before ++ CommandForm_Changed d :: after))
  = None.
Proof.
  intros handled Hc He Hafter Hempty. apply launched_run.
  destruct (tracks_run the_cli arg info query
              (before ++ [CommandForm_Changed d]))
    as (_ & _ & _ & Hcmd & _).
  fold handled in Hcmd. rewrite last_edit_snoc in Hcmd. cbn in Hcmd.
  replace (before ++ CommandForm_Changed d :: after)%list
    with ((before ++ [CommandForm_Changed d]) ++ after)%list
    by by rewrite <- app_assoc.
  unfold super_run. rewrite fold_left_app.
  rewrite (no_edit_fold after Hafter).
  fold (super_run (__init__ the_cli arg info) query
          (before ++ [CommandForm_Changed d])).
  fold handled. rewrite Hcmd by by apply handling_true. exact Hempty.
Qed.

(** X7: no handler ever takes a commit back: once [execute_on_exit] is
    set it stays set, and once [exit()] was called it stays called,
    through every later event. *)
Theorem flags_stay (events : list Event) (self : t) :
  (execute_on_exit self = true ->
   execute_on_exit (fold_left deliver events self) = true)
  /\ (exit_called self = true ->
      exit_called (fold_left deliver events self) = true).
Proof.
  split.
  - revert self. induction events as [|ev events IH]; intros self Hx; [done|].
    cbn [fold_left]. by apply IH, flags_deliver.
  - revert self. induction events as [|ev events IH]; intros self Hx; [done|].
    cbn [fold_left]. by apply IH, flags_deliver.
Qed.

(** X8: a commit closes the command: once the application has handled
    a commit action, whatever events follow, [exit()] stays called with
    [execute_on_exit] set and the command to run stays the one recorded
    when the commit was handled; an edit that arrives later is not
    recorded. *)
Theorem commit_closes_command (self : t) (ev : Event) (after : list Event) :
  exit_called self = false ->
  error self = None ->
  is_commit ev = true ->
  post_run_command (fold_left deliver after (deliver self ev))
  = post_run_command self
  /\ execute_on_exit (fold_left deliver after (deliver self ev)) = true
  /\ exit_called (fold_left deliver after (deliver self ev)) = true.
Proof.
  intros Hc He Hcommit.
  assert (Hstep : handling (deliver self ev) = false
                  /\ post_run_command (deliver self ev) = post_run_command self
                  /\ execute_on_exit (deliver self ev) = true
                  /\ exit_called (deliver self ev) = true).
  { destruct self as [c prc g x n stack ex err]. cbn in Hc, He. subst ex err.
    destruct ev as [node|d| | | |button_id|]; try discriminate Hcommit;
      [done|].
    cbn in Hcommit. apply bool_decide_eq_true in Hcommit as ->. done. }
  destruct Hstep as (Hidle & Hp & Hx & Hcalled).
  destruct (idle_fold after _ Hidle) as (_ & Hp' & Hx' & Hc').
  repeat split; congruence.
Qed.

(** X9: a command tree without a cursor node stops the application at
    mount: reading [data] of [None] raises, so whatever events follow,
    [execute_on_exit] stays unset, no command to run is recorded and
    nothing is launched. *)
Theorem mount_without_cursor_stops (the_cli : Click.Obj) (arg info : string)
    (events : list Event) :
  let out := run (__init__ the_cli arg info) (Cursor_node None) events in
  execute_on_exit (final out) = false
  /\ post_run_command (final out) = []
  /\ launched out = None.
Proof.
  intros out.
  destruct (idle_fold events
              (on_mount (__init__ the_cli arg info) (Cursor_node None))
              eq_refl) as (_ & Hp & Hx & _).
  fold (super_run (__init__ the_cli arg info) (Cursor_node None) events)
    in Hp, Hx.
  unfold out. rewrite final_run, Hp, Hx. repeat split.
  apply launched_run. by rewrite Hp.
Qed.

(** X10: every event is idempotent: delivering the same event a second
    time, right after the first, changes nothing. *)
Theorem deliver_twice (self : t) (ev : Event) :
  deliver (deliver self ev) ev = deliver self ev.
Proof.
  destruct self
    as [c prc g x n [|[[cd|] sg sn [sel|] prev form] below] [|] [e|]];
    destruct ev as [node|d| | | |button_id|]; try reflexivity;
    unfold deliver, handling, stopped, on_button_pressed; cbn;
    destruct (decide (button_id = Some "home-exec-button")) eqn:Hid;
    cbn; by rewrite ?Hid.
Qed.

(** X11: the line that [run] hands to the console names what it
    launches: when [app_name] needs no quoting, the text between the
    markup tags of the "Running" line given to [console.print]
    re-tokenizes to exactly the argument vector handed to [os.execvp]. *)
Theorem printed_command_round_trip (the_cli : Click.Obj) (arg info : string)
    (query : CursorQuery) (events : list Event) (call : Execvp) :
  launched (run (__init__ the_cli arg info) query events) = Some call ->
  Shlex.quotes_added info = false ->
  exists text printed,
    console_print ("Running [b cyan]" +:+ text +:+ "[/]") = Some printed
    /\ console (run (__init__ the_cli arg info) query events) = [printed]
    /\ Shlex.split text = Some (args call)
    /\ file call = info.
Proof.
  intros Hlaunch Hinfo. unfold run in *.
  destruct (tracks_run the_cli arg info query events) as (_ & Hname & _).
  set (self := super_run _ _ _) in *.
  destruct (post_run_command self) as [|token command] eqn:Hpost;
    [discriminate Hlaunch|].
  cbn [negb is_nil andb] in Hlaunch |- *. destruct (execute_on_exit self);
    [|discriminate Hlaunch].
  cbn [negb is_nil andb] in Hlaunch |- *. rewrite Hname in *.
  assert (Hquote : Shlex.quote info = info).
  { unfold Shlex.quotes_added in Hinfo. unfold Shlex.quote.
    apply orb_false_iff in Hinfo as [Hne Hsafe].
    rewrite Hne. apply negb_false_iff in Hsafe. by rewrite Hsafe. }
  assert (Hjoin : Shlex.join (info :: token :: command)
                  = info +:+ " " +:+ Shlex.join (token :: command)).
  { unfold Shlex.join.
    change (String.concat " " (map Shlex.quote (info :: token :: command)))
      with (Shlex.quote info
              +:+ String " " (String.concat " "
                                (map Shlex.quote (token :: command)))).
    by rewrite Hquote. }
  assert (Hmarkup :
    "Running [b cyan]" +:+ info +:+ " " +:+ Shlex.join (token :: command)
      +:+ "[/]"
    = "Running [b cyan]" +:+ Shlex.join (info :: token :: command)
        +:+ "[/]").
  { rewrite Hjoin. by rewrite !string_app_assoc. }
  rewrite Hmarkup in *.
  destruct (console_print _) as [printed|] eqn:Hprint;
    [|discriminate Hlaunch].
  cbn in Hlaunch |- *. injection Hlaunch as <-. cbn [args file].
  exists (Shlex.join (info :: token :: command)), printed.
  split; [exact Hprint|]. split; [done|].
  split; [apply tokens_join | reflexivity].
Qed.

(** X12: the TUI opened by the "tui" subcommand works on the decorated
    object, not on what the decorator returned, and under the name of
    the root context, not under the name given to the decorator: for a
    group or a named command, invoking "tui" on the result builds the
    application around the decorated object, so a single command is
    treated as a single command although it now sits in a group. *)
Theorem tui_callback_sees_decorated (name : string) (h : list Click.Obj)
    (app : nat) (o : Click.Obj) (info : string) (query : CursorQuery)
    (events : list Event) :
  h !! app = Some o ->
  Click.isinstance_Group o = true \/ Click.obj_name o <> None ->
  exists g h' o' out,
    tui name h app = Ok (g, h')
    /\ h' !! app = Some o'
    /\ Click.isinstance_Group o' = Click.isinstance_Group o
    /\ invoke_tui h' g info query events = Some out
    /\ out = run (__init__ o' name info) query events
    /\ is_grouped_cli (final out) = Click.isinstance_Group o
    /\ app_name (final out) = info.
Proof.
  intros Happ Hnamed. pose proof (lookup_lt_Some _ _ _ Happ) as Hlt.
  assert (Hrun : forall o',
    Click.isinstance_Group o' = Click.isinstance_Group o ->
    is_grouped_cli (final (run (__init__ o' name info) query events))
    = Click.isinstance_Group o
    /\ app_name (final (run (__init__ o' name info) query events)) = info).
  { intros o' Hkind. rewrite final_run.
    destruct (tracks_run o' name info query events) as (Hg & Hn & _).
    by rewrite Hg, Hn, Hkind. }
  destruct o as [[n|] callback | gname commands].
  - set (G := Click.Group None (<["tui" := S (length h)]> {[n := app]})).
    set (h' := (h ++ [G; tui_command app name])%list).
    assert (Hg : h' !! length h = Some G) by by apply list_lookup_middle.
    assert (Ht : h' !! S (length h) = Some (tui_command app name)).
    { unfold h'. rewrite lookup_app_r by lia.
      replace (S (length h) - length h) with 1 by lia. reflexivity. }
    assert (Ha : h' !! app = Some (Click.Command (Some n) callback))
      by by apply lookup_app_l_Some.
    exists (length h), h', (Click.Command (Some n) callback),
      (run (__init__ (Click.Command (Some n) callback) name info) query events).
    split; [apply (tui_on_command name h app n callback Happ)|].
    split; [exact Ha|]. split; [done|]. split.
    { unfold invoke_tui. rewrite Hg. unfold G. rewrite lookup_insert_eq, Ht.
      unfold tui_command, wrapped_tui. by rewrite Ha. }
    split; [done|]. by apply Hrun.
  - destruct Hnamed as [Hgroup | Hname]; [discriminate Hgroup | by destruct Hname].
  - set (G := Click.Group gname (<["tui" := length h]> commands)).
    set (h' := <[app := G]> (h ++ [tui_command app name])%list).
    assert (Hg : h' !! app = Some G).
    { apply list_lookup_insert_eq. rewrite length_app. lia. }
    assert (Ht : h' !! length h = Some (tui_command app name)).
    { unfold h'. rewrite list_lookup_insert_ne by lia.
      by apply list_lookup_middle. }
    exists app, h', G, (run (__init__ G name info) query events).
    split; [apply (tui_on_group name h app gname commands Happ)|].
    split; [exact Hg|]. split; [done|]. split.
    { unfold invoke_tui. rewrite Hg. unfold G. rewrite lookup_insert_eq, Ht.
      unfold tui_command, wrapped_tui. by rewrite Hg. }
    split; [done|]. by apply Hrun.
Qed.

End AppCases.

(** ** Runs of the example programs *)

Section AppCaseWitnesses.
Import Model Examples TextualClick.
#[local] Existing Instance literal_floats.
#[local] Existing Instance run_command.
#[local] Existing Instance bracket_free_console.

Lemma no_edit_no_launch_witness :
  launched
    (run (__init__ hello_command "TUI Mode" "hello")
       (Cursor_node (Some hello_node)) [Key_ctrl_r; Key_ctrl_r])
  = None.
Proof.
  apply (no_edit_no_launch (H := @run_command literal_floats)
           (H0 := bracket_free_console) hello_command "TUI Mode" "hello" (Cursor_node (Some hello_node))
           [Key_ctrl_r; Key_ctrl_r]).
  intros d [Hin | [Hin | []]]; discriminate Hin.
Defined.

Lemma empty_command_no_launch_witness :
  launched
    (run (__init__ myapp_group "TUI Mode" "myapp")
       (Cursor_node (Some myapp_node))
       [CommandForm_Changed myapp_data; Key_ctrl_r])
  = None.
Proof.
  apply (empty_command_no_launch (H := @run_command literal_floats)
           (H0 := bracket_free_console)
           myapp_group "TUI Mode" "myapp" (Cursor_node (Some myapp_node))
           [] [Key_ctrl_r] myapp_data eq_refl eq_refl);
    [repeat constructor | reflexivity].
Defined.

(** [hello] filled in and committed, then another edit: not recorded. *)
Lemma commit_closes_command_witness :
  post_run_command
    (fold_left deliver [CommandForm_Changed deploy_data]
       (deliver
          (super_run (__init__ hello_command "TUI Mode" "hello")
             (Cursor_node (Some hello_node)) [CommandForm_Changed hello_data])
          Key_ctrl_r))
  = post_run_command
      (super_run (__init__ hello_command "TUI Mode" "hello")
         (Cursor_node (Some hello_node)) [CommandForm_Changed hello_data]).
Proof.
  exact (proj1 (commit_closes_command (H := @run_command literal_floats)
                  (super_run (__init__ hello_command "TUI Mode" "hello")
                     (Cursor_node (Some hello_node))
                     [CommandForm_Changed (H := @run_command literal_floats)
                        hello_data])
                  Key_ctrl_r
                  [CommandForm_Changed (H := @run_command literal_floats)
                     deploy_data]
                  eq_refl eq_refl eq_refl)).
Defined.

Lemma printed_command_round_trip_witness :
  exists text printed,
    console_print ("Running [b cyan]" +:+ text +:+ "[/]") = Some printed
    /\ console hello_run = [printed]
    /\ Shlex.split text = Some ["hello"; "hello"; "--name"; "x"].
Proof.
  assert (Hlaunch : launched hello_run
    = Some {| file := "hello"; args := ["hello"; "hello"; "--name"; "x"] |})
    by (vm_compute; reflexivity).
  destruct (printed_command_round_trip (H := @run_command literal_floats)
              (H0 := bracket_free_console)
              hello_command "TUI Mode" "hello" (Cursor_node (Some hello_node))
              [CommandForm_Changed (H := @run_command literal_floats)
                 hello_data; Key_ctrl_r]
              _ Hlaunch eq_refl)
    as (text & printed & Hprint & Hconsole & Hsplit & _).
  exists text, printed.
  split; [exact Hprint|]. split; [exact Hconsole | exact Hsplit].
Defined.

Lemma tui_callback_sees_decorated_witness :
  exists g h' out,
    tui "TUI Mode" [hello_command] 0 = Ok (g, h')
    /\ invoke_tui h' g "hello" (Cursor_node (Some hello_node)) [] = Some out
    /\ is_grouped_cli (final out) = false.
Proof.
  destruct (tui_callback_sees_decorated (H := @run_command literal_floats)
              (H0 := bracket_free_console) "TUI Mode" [hello_command] 0 hello_command "hello"
              (Cursor_node (Some hello_node)) [] eq_refl)
    as (g & h' & o' & out & Htui & _ & _ & Hinvoke & _ & Hkind & _).
  { right. discriminate. }
  exists g, h', out. split; [exact Htui|]. split; [exact Hinvoke|exact Hkind].
Defined.

End AppCaseWitnesses.

(** ** The checkboxes of the multiple-choice widget *)

Section MultipleChoiceCases.
Import MultipleChoice.

(** The tuple [selected] holds for a checkbox. *)
Lemma selected_after_event (self : t) :
  selected (on_checkbox_changed self)
  = map (fun checkbox => Py_tuple [Py_str (plain (label checkbox))])
      (List.filter value (checkboxes self)).
Proof.
  unfold on_checkbox_changed. cbn. rewrite fold_selected. cbn [app].
  unfold query_Checkbox.
  rewrite <- (filter_refs (fun i => i) (checkboxes self)).
  by rewrite map_map.
Qed.

Lemma filter_unchecked (l : list Checkbox) :
  Forall (fun checkbox => value checkbox = false) l <-> List.filter value l = [].
Proof.
  induction l as [|x l IH]; [done|]. cbn [List.filter].
  destruct (value x) eqn:Hx; split.
  - intros Hall. inversion_clear Hall. congruence.
  - discriminate.
  - intros Hall. inversion_clear Hall. by apply IH.
  - intros Hl. constructor; [done|]. by apply IH.
Qed.

Lemma str_not_in_tuples (option : string) (l : list PyVal) :
  Forall (fun d => is_tuple d = true) l -> py_in (Py_str option) l = false.
Proof.
  unfold py_in. induction 1 as [|d l Hd _ IH]; [done|].
  cbn [existsb]. rewrite IH. by destruct d.
Qed.

Lemma compose_values (make_label : string -> Text) (self : t) :
  Forall (fun d => is_tuple d = true) (defaults self) ->
  Forall (fun checkbox => value checkbox = false) (compose make_label self).
Proof.
  intros Htuples. unfold compose. apply Forall_forall. intros checkbox Hin.
  apply list_elem_of_In, in_map_iff in Hin as (option & <- & _). cbn.
  by apply str_not_in_tuples.
Qed.

(** X13: the defaults never check a box: when every default is a tuple,
    as the signature of the widget says, and also when no defaults are
    given, [compose] yields one checkbox per option, in the order of the
    options, and every one of them unchecked. *)
Theorem compose_unchecked (make_label : string -> Text) (self : t) :
  Forall (fun d => is_tuple d = true) (defaults self) ->
  Forall (fun checkbox => value checkbox = false) (compose make_label self)
  /\ map label (compose make_label self) = map make_label (options self)
  /\ length (compose make_label self) = length (options self).
Proof.
  intros Htuples. split; [by apply compose_values|]. unfold compose. split.
  - by rewrite map_map.
  - apply length_map.
Qed.

Lemma compose_unchecked_witness :
  Forall (fun checkbox => value checkbox = false)
    (compose (fun option => {| plain := option |})
       (__init__ ["a"; "b"] (Some [Py_tuple [Py_str "a"]]))).
Proof.
  apply (compose_unchecked (fun option => {| plain := option |})
           (__init__ ["a"; "b"] (Some [Py_tuple [Py_str "a"]]))).
  repeat constructor.
Defined.

Lemma filter_single (l : list Checkbox) :
  Forall (fun checkbox => value checkbox = false) l ->
  forall i checkbox,
    l !! i = Some checkbox ->
    List.filter value
      (<[i := {| label := label checkbox; value := negb (value checkbox) |}]> l)
    = [{| label := label checkbox; value := true |}].
Proof.
  induction 1 as [|x l Hx Hl IH]; intros [|i] checkbox Hi; try done.
  - cbn in Hi. injection Hi as <-. cbn. rewrite Hx. cbn.
    by rewrite (proj1 (filter_unchecked l) Hl).
  - cbn in Hi. cbn. rewrite Hx. by apply IH.
Qed.

(** X14: the first toggle drops the defaults: in a freshly composed
    widget whose defaults are tuples, toggling the checkbox of an option
    leaves [selected] with the one-element tuple of that label alone. *)
Theorem first_toggle_selects_only_it (make_label : string -> Text) (self : t)
    (i : nat) (option : string) :
  Forall (fun d => is_tuple d = true) (defaults self) ->
  options self !! i = Some option ->
  selected (toggle (mounted self (compose make_label self)) i)
  = [Py_tuple [Py_str (plain (make_label option))]].
Proof.
  intros Htuples Hi.
  pose proof (compose_values make_label self Htuples) as Hunchecked.
  assert (Hlookup : compose make_label self !! i
                    = Some {| label := make_label option; value := false |}).
  { unfold compose. rewrite list_lookup_fmap, Hi. cbn.
    by rewrite str_not_in_tuples. }
  unfold toggle. cbn [checkboxes mounted]. rewrite Hlookup.
  rewrite selected_after_event. cbn [checkboxes mounted].
  by rewrite (filter_single _ Hunchecked i _ Hlookup).
Qed.

Lemma first_toggle_selects_only_it_witness :
  selected
    (toggle
       (mounted (__init__ ["a"; "b"] (Some [Py_tuple [Py_str "a"]]))
          (compose (fun option => {| plain := option |})
             (__init__ ["a"; "b"] (Some [Py_tuple [Py_str "a"]])))) 1)
  = [Py_tuple [Py_str "b"]].
Proof.
  apply (first_toggle_selects_only_it (fun option => {| plain := option |})
           (__init__ ["a"; "b"] (Some [Py_tuple [Py_str "a"]])) 1 "b").
  - repeat constructor.
  - reflexivity.
Defined.

(** X15: after an event [selected] is empty exactly when no checkbox is
    checked, and it is never the list with one empty tuple that a widget
    without defaults starts with. *)
Theorem selected_empty_iff_unchecked (self : t) (options : list string) :
  (selected (on_checkbox_changed self) = []
   <-> Forall (fun checkbox => value checkbox = false) (checkboxes self))
  /\ selected (on_checkbox_changed self) <> selected (__init__ options None).
Proof.
  rewrite selected_after_event. split.
  - rewrite filter_unchecked.
    destruct (List.filter value (checkboxes self)); by split.
  - cbn. by destruct (List.filter value (checkboxes self)) as [|x [|y l]].
Qed.

Lemma iter_event_checkboxes (k : nat) (self : t) :
  checkboxes (Nat.iter k on_checkbox_changed self) = checkboxes self.
Proof. induction k as [|k IH]; [done|]. rewrite Nat.iter_succ. exact IH. Qed.

Lemma iter_event_posted (k : nat) (self : t) :
  length (posted (Nat.iter k on_checkbox_changed self))
  = length (posted self) + k.
Proof.
  induction k as [|k IH]; [cbn; lia|]. rewrite Nat.iter_succ.
  unfold on_checkbox_changed at 1. cbn [posted].
  rewrite length_app, IH. cbn [length]. lia.
Qed.

Lemma changed_values_unset (l : list Checkbox) (f : Checkbox -> bool) :
  (forall checkbox, f checkbox = false) ->
  changed_values l
    (map (fun checkbox => {| label := label checkbox; value := f checkbox |}) l)
  = length (List.filter value l).
Proof.
  intros Hf. unfold changed_values. induction l as [|x l IH]; [done|].
  cbn. rewrite Hf. destruct (value x); cbn; by rewrite IH.
Qed.

(** X16: [select_by_label] selects nothing: as the label of a checkbox is
    never equal to a [str], every checkbox ends unchecked with its label
    kept, one message is posted per checkbox that was checked, and
    [selected] ends empty if any was checked and is left as it was
    otherwise. *)
Theorem select_by_label_unchecks (self : t) (label_ : string) :
  let after := select_by_label self label_ in
  Forall (fun checkbox => value checkbox = false) (checkboxes after)
  /\ map label (checkboxes after) = map label (checkboxes self)
  /\ length (posted after)
     = length (posted self) + length (List.filter value (checkboxes self))
  /\ (Exists (fun checkbox => value checkbox = true) (checkboxes self) ->
      selected after = [])
  /\ (Forall (fun checkbox => value checkbox = false) (checkboxes self) ->
      selected after = selected self /\ posted after = posted self).
Proof.
  intros after. unfold after, select_by_label.
  rewrite (changed_values_unset (checkboxes self)
             (fun checkbox => label_eq_str (label checkbox) label_))
    by done.
  set (assigned := map _ (checkboxes self)).
  assert (Hassigned : Forall (fun checkbox => value checkbox = false) assigned).
  { apply Forall_forall. intros checkbox Hin.
    by apply list_elem_of_In, in_map_iff in Hin as (? & <- & _). }
  split; [|split; [|split; [|split]]].
  - by rewrite iter_event_checkboxes.
  - rewrite iter_event_checkboxes. cbn. unfold assigned. rewrite map_map.
    by apply map_ext.
  - by rewrite iter_event_posted.
  - intros Hsome.
    destruct (List.filter value (checkboxes self)) as [|x l] eqn:Hchecked.
    { apply filter_unchecked in Hchecked. apply Exists_exists in Hsome
        as (checkbox & Hin & Hvalue).
      rewrite Forall_forall in Hchecked. specialize (Hchecked _ Hin).
      congruence. }
    cbn [length]. rewrite Nat.iter_succ, selected_after_event.
    rewrite iter_event_checkboxes. cbn [checkboxes mounted].
    by rewrite (proj1 (filter_unchecked assigned) Hassigned).
  - intros Hnone. by rewrite (proj1 (filter_unchecked _) Hnone).
Qed.

End MultipleChoiceCases.

(** ** The display string, one per argument vector *)

(** X17: two argument vectors with the same display string are the same
    vector. *)
Theorem join_injective (argv argv' : list string) :
  Shlex.join argv = Shlex.join argv' -> argv = argv'.
Proof.
  intros Heq. pose proof (tokens_join argv) as Hsplit.
  rewrite Heq, tokens_join in Hsplit. by injection Hsplit.
Qed.

Lemma join_injective_witness : ["us east"] = ["us east"].
Proof. exact (join_injective ["us east"] ["us east"] eq_refl). Defined.

(** ** The description of the selected command *)

(** One step of [lstrip]: either the text does not start with a blank
    and is given back as it is, or one blank is taken off its front. *)
Lemma lstrip_step (s : string) :
  lstrip s = s
  \/ exists blank rest,
       s = blank +:+ rest
       /\ lstrip s = lstrip rest
       /\ String.length rest < String.length s
       /\ forall x, lstrip (blank +:+ x) = lstrip x.
Proof.
  destruct s as [|c1 s1]; [by left|].
  destruct (is_ascii_space c1) eqn:H1.
  { right. exists (String c1 ""), s1.
    split; [reflexivity|]. split; [cbn [lstrip]; by rewrite H1|].
    split; [cbn [String.length]; lia|].
    intros x. change (String c1 "" +:+ x) with (String c1 x).
    cbn [lstrip]. by rewrite H1. }
  destruct s1 as [|c2 s2]; [left; cbn [lstrip]; by rewrite H1|].
  destruct (is_space2 c1 c2) eqn:H2.
  { right. exists (String c1 (String c2 "")), s2.
    split; [reflexivity|]. split; [cbn [lstrip]; by rewrite H1, H2|].
    split; [cbn [String.length]; lia|].
    intros x. change (String c1 (String c2 "") +:+ x)
      with (String c1 (String c2 x)).
    cbn [lstrip]. by rewrite H1, H2. }
  destruct s2 as [|c3 s3]; [left; cbn [lstrip]; by rewrite H1, H2|].
  destruct (is_space3 c1 c2 c3) eqn:H3.
  { right. exists (String c1 (String c2 (String c3 ""))), s3.
    split; [reflexivity|]. split; [cbn [lstrip]; by rewrite H1, H2, H3|].
    split; [cbn [String.length]; lia|].
    intros x. change (String c1 (String c2 (String c3 "")) +:+ x)
      with (String c1 (String c2 (String c3 x))).
    cbn [lstrip]. by rewrite H1, H2, H3. }
  left. cbn [lstrip]. by rewrite H1, H2, H3.
Qed.

(** [lstrip] takes a run of blanks off the front and nothing else, and
    what it gives back does not start with a blank. *)
Lemma lstrip_spec (s : string) :
  exists blanks,
    s = blanks +:+ lstrip s
    /\ (forall x, lstrip (blanks +:+ x) = lstrip x)
    /\ lstrip (lstrip s) = lstrip s.
Proof.
  remember (String.length s) as n eqn:Hn. revert s Hn.
  induction n as [n IH] using lt_wf_ind. intros s ->.
  destruct (lstrip_step s) as [Hsame | (blank & rest & Hs & Hstep & Hlt & Hblank)].
  - exists "". rewrite Hsame. by repeat split.
  - destruct (IH _ Hlt rest eq_refl) as (blanks & Hrest & Hblanks & Hidem).
    exists (blank +:+ blanks). rewrite Hstep. repeat split.
    + by rewrite string_app_assoc, <- Hrest.
    + intros x. by rewrite string_app_assoc, Hblank, Hblanks.
    + exact Hidem.
Qed.

Section DescriptionFacts.
Context `{RunCommand}.
Variable docstring : CommandSchema -> option string.

(** X18: the description is the label of the node for a group, the name
    of the application for a single command, in bold on a line of its
    own, followed by the docstring without the blanks it starts with; a
    missing docstring counts as the empty text, and nothing but leading
    blanks is taken off. *)
Theorem description_text_shape (self : CommandBuilder.t) (node : TreeNode) :
  exists blanks body,
    CommandBuilder._update_command_description docstring self node
    = "[b]"
        +:+ (if CommandBuilder.is_grouped_cli self
             then node_label node else CommandBuilder.click_app_name self)
        +:+ "[/]" +:+ String "010" body
    /\ default "" (docstring (node_data node)) = blanks +:+ body
    /\ lstrip blanks = ""
    /\ lstrip body = body.
Proof.
  unfold CommandBuilder._update_command_description.
  set (doc := match docstring (node_data node) with
              | Some d => if nonempty d then d else ""
              | None => ""
              end).
  assert (Hdoc : doc = default "" (docstring (node_data node))).
  { unfold doc. destruct (docstring (node_data node)) as [[|c d]|]; done. }
  destruct (lstrip_spec doc) as (blanks & Hsplit & Hblanks & Hidem).
  exists blanks, (lstrip doc). repeat split.
  - by rewrite <- Hdoc.
  - specialize (Hblanks ""). by rewrite string_app_nil_r in Hblanks.
  - exact Hidem.
Qed.

End DescriptionFacts.

(** ** Two more runs of the examples *)

Section MoreWitnesses.
Import Model Examples.
#[local] Existing Instance literal_floats.
#[local] Existing Instance run_command.

Lemma flags_stay_witness :
  TextualClick.execute_on_exit
    (fold_left TextualClick.deliver
       [TextualClick.Quit; TextualClick.Key_ctrl_t]
       (TextualClick.action_close_and_run
          (TextualClick.__init__ hello_command "TUI Mode" "hello")))
  = true.
Proof.
  exact (proj1 (flags_stay (H := @run_command literal_floats)
                  [TextualClick.Quit; TextualClick.Key_ctrl_t]
                  (TextualClick.action_close_and_run
                     (TextualClick.__init__ hello_command "TUI Mode" "hello")))
           eq_refl).
Defined.

Lemma select_by_label_unchecks_witness :
  MultipleChoice.selected
    (MultipleChoice.select_by_label
       (MultipleChoice.mounted (MultipleChoice.__init__ ["a"; "b"] None)
          [{| MultipleChoice.label := {| MultipleChoice.plain := "a" |};
              MultipleChoice.value := true |};
           {| MultipleChoice.label := {| MultipleChoice.plain := "b" |};
              MultipleChoice.value := false |}])
       "a")
  = [].
Proof.
  apply (select_by_label_unchecks
           (MultipleChoice.mounted (MultipleChoice.__init__ ["a"; "b"] None)
              [{| MultipleChoice.label := {| MultipleChoice.plain := "a" |};
                  MultipleChoice.value := true |};
               {| MultipleChoice.label := {| MultipleChoice.plain := "b" |};
                  MultipleChoice.value := false |}])
           "a").
  by constructor.
Defined.

End MoreWitnesses.
